(** * The chat client of devin_app (frontend/app.js): stream reducer, single
      in-flight turn, PDF attachment rendering.

    The development embeds the client-side code of [frontend/app.js]:
    [sendMessage] with its read loop, [addMessage], [updateMessageContent],
    [removeLoadingIndicator], [showToolIndicator], [renderMarkdown],
    [addPdfImages], [startNewChat], [removeUploadedFile] and
    [updateSendButton].

    Modelling choices.
    - JavaScript strings are [string]s (code units below 256).
    - The page is a record of the script's globals and of the part of the DOM
      the script reads and writes: the children of [#messages-container], the
      message input, the web-search toggle, the send button.
    - A message's [.message-content] element is the list of its children.  The
      markup produced by [renderMarkdown] is one opaque [Markup] child: the
      selectors [.loading-indicator] and [.tool-indicator[data-tool=..]] are
      matched against the elements the script itself creates.  This is what
      the script sees when the markup on the page holds no element with a
      [class] or an [id] attribute ([inert], [plain_page]), and when the
      tool name the attribute selector is built from stands for itself
      inside the quoted string of the selector ([css_safe]); the properties
      of [showToolIndicator] are stated for such names and pages.
    - [JSON.parse], the [marked]/KaTeX pipeline and the string conversion of
      numbers and objects are library code: they are parameters of the model.
      A concrete JSON reader ([JSON.parse]) instantiates the first one on the
      concrete inputs of examples.
    - [async sendMessage] is cut at its [await]s: the synchronous prologue
      ([sendMessage]), one iteration of the read loop ([read_chunk]), the
      normal exit ([stream_end]) and the [catch] path ([stream_fail]).
      [Date.now()] is an argument of [addMessage]: when the two calls in
      [sendMessage] read the same value, both elements carry the same id
      and [getElementById] returns the first of them; the properties below
      are about the element it returns. *)

From Stdlib Require Import String Ascii List Bool Arith Lia DecimalString.
Import ListNotations.
Set Warnings "-register-all".
Open Scope list_scope.
Open Scope string_scope.

(** ** JavaScript string primitives *)

Module Js.

Definition lf : ascii := "010"%char.
Definition dquote : ascii := "034"%char.
Definition LF : string := String lf EmptyString.

(** [s.startsWith(p)] *)
Definition startsWith (p s : string) : bool := String.prefix p s.

(** [s.slice(n)] for [n >= 0]: the string without its first [n] units. *)
Fixpoint slice (n : nat) (s : string) : string :=
  match n, s with
  | O, _ => s
  | S _, EmptyString => EmptyString
  | S k, String _ r => slice k r
  end.

(** [s.split('\n')]: the segments between line feeds, never empty as a list. *)
Fixpoint split (s : string) : list string :=
  match s with
  | EmptyString => [EmptyString]
  | String c r =>
      if Ascii.eqb c lf then EmptyString :: split r
      else match split r with
           | l :: ls => String c l :: ls
           | [] => [String c EmptyString]
           end
  end.

(** White space and line terminators of ECMAScript among the units below 256:
    TAB, LF, VT, FF, CR, SP and NBSP. *)
Definition is_space (c : ascii) : bool :=
  match nat_of_ascii c with
  | 9 | 10 | 11 | 12 | 13 | 32 | 160 => true
  | _ => false
  end.

Fixpoint trimStart (s : string) : string :=
  match s with
  | EmptyString => EmptyString
  | String c r => if is_space c then trimStart r else s
  end.

Fixpoint trimEnd (s : string) : string :=
  match s with
  | EmptyString => EmptyString
  | String c r =>
      match trimEnd r with
      | EmptyString => if is_space c then EmptyString else String c EmptyString
      | r' => String c r'
      end
  end.

(** [s.trim()] *)
Definition trim (s : string) : string := trimEnd (trimStart s).

(** Decimal rendering of a non-negative integer, as a template literal does. *)
Definition of_nat (n : nat) : string := NilZero.string_of_uint (Nat.to_uint n).

(** Truthiness of a string: [!s] holds of the empty string only. *)
Definition truthy (s : string) : bool :=
  match s with EmptyString => false | _ => true end.

(** [haystack.includes(needle)] *)
Fixpoint includes (needle haystack : string) : bool :=
  String.prefix needle haystack ||
  match haystack with
  | EmptyString => false
  | String _ r => includes needle r
  end.

(** Single quotes of a literal turned into double quotes: lets the examples
    below spell JSON text inside a string literal. *)
Fixpoint dq (s : string) : string :=
  match s with
  | EmptyString => EmptyString
  | String c r => String (if Ascii.eqb c "'"%char then dquote else c) (dq r)
  end.

End Js.

(** ** JSON values and a reader for JSON text *)

Module JSON.

Inductive value : Type :=
| Null
| Bool (b : bool)
| Num (literal : string)
| Str (s : string)
| Arr (items : list value)
| Obj (members : list (string * value)).

(** Property read [data.key] on a parsed value that is not [null]: the member
    of an object, where a later duplicate wins; [undefined] ([None]) on
    anything else (none of the keys read here is an inherited property). *)
Fixpoint assoc_last (key : string) (ms : list (string * value)) : option value :=
  match ms with
  | [] => None
  | (k, v) :: r =>
      match assoc_last key r with
      | Some w => Some w
      | None => if String.eqb k key then Some v else None
      end
  end.

Definition get (key : string) (data : value) : option value :=
  match data with
  | Obj ms => assoc_last key ms
  | _ => None
  end.

(** The reader.  White space is SP, TAB, LF, CR. *)
Definition is_ws (c : ascii) : bool :=
  match nat_of_ascii c with
  | 32 | 9 | 10 | 13 => true
  | _ => false
  end.

Fixpoint skip_ws (s : string) : string :=
  match s with
  | String c r => if is_ws c then skip_ws r else s
  | EmptyString => EmptyString
  end.

Definition is_digit (c : ascii) : bool :=
  let n := nat_of_ascii c in ((48 <=? n) && (n <=? 57))%nat.

Definition hex_digit (c : ascii) : option nat :=
  let n := nat_of_ascii c in
  if ((48 <=? n) && (n <=? 57))%nat then Some (n - 48)
  else if ((65 <=? n) && (n <=? 70))%nat then Some (n - 55)
  else if ((97 <=? n) && (n <=? 102))%nat then Some (n - 87)
  else None.

Definition hex4 (a b c d : ascii) : option nat :=
  match hex_digit a, hex_digit b, hex_digit c, hex_digit d with
  | Some x, Some y, Some z, Some w => Some (((x * 16 + y) * 16 + z) * 16 + w)
  | _, _, _, _ => None
  end.

(** The characters of a string literal after its opening quote, up to the
    closing one.  An escape above U+00FF is outside the string model and is
    refused. *)
Fixpoint read_chars (s : string) : option (string * string) :=
  match s with
  | EmptyString => None
  | String c r =>
      if Ascii.eqb c Js.dquote then Some (EmptyString, r)
      else if Ascii.eqb c "\"%char then
        match r with
        | String e r' =>
            let plain (x : ascii) :=
              match read_chars r' with
              | Some (t, rest) => Some (String x t, rest)
              | None => None
              end in
            match nat_of_ascii e with
            | 34 => plain Js.dquote
            | 92 => plain "\"%char
            | 47 => plain "/"%char
            | 98 => plain "008"%char
            | 102 => plain "012"%char
            | 110 => plain "010"%char
            | 114 => plain "013"%char
            | 116 => plain "009"%char
            | 117 =>
                match r' with
                | String h1 (String h2 (String h3 (String h4 r''))) =>
                    match hex4 h1 h2 h3 h4 with
                    | Some n =>
                        if (n <? 256)%nat then
                          match read_chars r'' with
                          | Some (t, rest) => Some (String (ascii_of_nat n) t, rest)
                          | None => None
                          end
                        else None
                    | None => None
                    end
                | _ => None
                end
            | _ => None
            end
        | EmptyString => None
        end
      else if (nat_of_ascii c <? 32)%nat then None
      else match read_chars r with
           | Some (t, rest) => Some (String c t, rest)
           | None => None
           end
  end.

Fixpoint span_digits (s : string) : string * string :=
  match s with
  | String c r =>
      if is_digit c then let (d, rest) := span_digits r in (String c d, rest)
      else (EmptyString, s)
  | EmptyString => (EmptyString, EmptyString)
  end.

(** A number literal: an optional minus sign, an integer part without a
    leading zero, an optional fraction, an optional exponent. *)
Definition read_number (s : string) : option (string * string) :=
  let (sign, s1) :=
    match s with
    | String "-"%char r => ("-", r)
    | _ => (EmptyString, s)
    end in
  let (int, s2) := span_digits s1 in
  let int_ok :=
    match int with
    | EmptyString => false
    | String "0"%char (String _ _) => false
    | _ => true
    end in
  if negb int_ok then None else
  let frac :=
    match s2 with
    | String "."%char r =>
        let (d, rest) := span_digits r in
        match d with
        | EmptyString => None
        | _ => Some ("." ++ d, rest)
        end
    | _ => Some (EmptyString, s2)
    end in
  match frac with
  | None => None
  | Some (f, s3) =>
      let exp :=
        match s3 with
        | String e r =>
            if Ascii.eqb e "e"%char || Ascii.eqb e "E"%char then
              let (sg, r1) :=
                match r with
                | String "+"%char r' => ("+", r')
                | String "-"%char r' => ("-", r')
                | _ => (EmptyString, r)
                end in
              let (d, rest) := span_digits r1 in
              match d with
              | EmptyString => None
              | _ => Some (String e (sg ++ d), rest)
              end
            else Some (EmptyString, s3)
        | EmptyString => Some (EmptyString, s3)
        end in
      match exp with
      | None => None
      | Some (x, s4) => Some (sign ++ int ++ f ++ x, s4)
      end
  end.

Fixpoint read_value (fuel : nat) (s : string) {struct fuel}
  : option (value * string) :=
  match fuel with
  | O => None
  | S fuel' =>
      match skip_ws s with
      | EmptyString => None
      | String c r =>
          match nat_of_ascii c with
          | 110 => if String.prefix "ull" r then Some (Null, Js.slice 3 r) else None
          | 116 => if String.prefix "rue" r then Some (Bool true, Js.slice 3 r) else None
          | 102 => if String.prefix "alse" r then Some (Bool false, Js.slice 4 r) else None
          | 34 =>
              match read_chars r with
              | Some (t, rest) => Some (Str t, rest)
              | None => None
              end
          | 91 =>
              match skip_ws r with
              | String "]"%char rest => Some (Arr [], rest)
              | _ =>
                  match read_items fuel' r with
                  | Some (vs, rest) => Some (Arr vs, rest)
                  | None => None
                  end
              end
          | 123 =>
              match skip_ws r with
              | String "}"%char rest => Some (Obj [], rest)
              | _ =>
                  match read_members fuel' r with
                  | Some (ms, rest) => Some (Obj ms, rest)
                  | None => None
                  end
              end
          | _ =>
              match read_number (String c r) with
              | Some (n, rest) => Some (Num n, rest)
              | None => None
              end
          end
      end
  end
with read_items (fuel : nat) (s : string) {struct fuel}
  : option (list value * string) :=
  match fuel with
  | O => None
  | S fuel' =>
      match read_value fuel' s with
      | None => None
      | Some (v, r) =>
          match skip_ws r with
          | String ","%char r' =>
              match read_items fuel' r' with
              | Some (vs, rest) => Some (v :: vs, rest)
              | None => None
              end
          | String "]"%char rest => Some ([v], rest)
          | _ => None
          end
      end
  end
with read_members (fuel : nat) (s : string) {struct fuel}
  : option (list (string * value) * string) :=
  match fuel with
  | O => None
  | S fuel' =>
      match skip_ws s with
      | String q r =>
          if negb (Ascii.eqb q Js.dquote) then None else
          match read_chars r with
          | None => None
          | Some (k, r1) =>
              match skip_ws r1 with
              | String ":"%char r2 =>
                  match read_value fuel' r2 with
                  | None => None
                  | Some (v, r3) =>
                      match skip_ws r3 with
                      | String ","%char r4 =>
                          match read_members fuel' r4 with
                          | Some (ms, rest) => Some ((k, v) :: ms, rest)
                          | None => None
                          end
                      | String "}"%char rest => Some ([(k, v)], rest)
                      | _ => None
                      end
                  end
              | _ => None
              end
          end
      | EmptyString => None
      end
  end.

(** [JSON.parse(text)]: [None] stands for the SyntaxError it throws. *)
Definition parse (text : string) : option value :=
  match read_value (S (String.length text)) text with
  | Some (v, rest) =>
      match skip_ws rest with
      | EmptyString => Some v
      | _ => None
      end
  | None => None
  end.

End JSON.

(** ** The page: globals of the script and the DOM it touches *)

Inductive role : Type := user | assistant.

(** Second class of a [.tool-indicator] element. *)
Inductive indicator : Type := active | complete.

(** Children of a [.message-content] element. *)
Inductive node : Type :=
| LoadingIndicator
| ToolIndicator (cls : indicator) (data_tool : string) (textContent : string)
| Markup (html : string).

(** One page image of the upload response, and the [img] made from it. *)
Record image : Type := { page : nat; data : string }.
Record thumb : Type := { src : string; alt : string; title : string }.

(** A [.pdf-images] element: its thumbnails and the text of the trailing
    [span], when there is one. *)
Record pdfImages : Type := { thumbs : list thumb; moreSpan : option string }.

(** A [.message] element of [#messages-container]. *)
Record messageDiv : Type := {
  elem_id : string;
  role_of : role;
  header : string;
  contentDiv : list node;
  appended : list pdfImages
}.

(** The JSON answer of [/upload]. *)
Record upload : Type := {
  filename : string;
  text_content : string;
  images : list image
}.

(** Body of the [/chat] request. *)
Record request : Type := {
  message : string;
  model_id : option string;
  conversation_id : option JSON.value;
  web_search_enabled : bool
}.

Record client : Type := {
  (* globals *)
  currentConversationId : option JSON.value;  (* [None] is [undefined] *)
  currentModel : option string;
  uploadedFileData : option upload;
  isStreaming : bool;
  (* DOM *)
  input_value : string;          (* #message-input *)
  web_search_toggle : bool;      (* #web-search-toggle *)
  welcome : bool;                (* a .welcome-message element is present *)
  messages : list messageDiv;    (* the .message children of the container *)
  send_disabled : bool;          (* #send-btn *)
  uploaded_file_shown : bool;    (* #uploaded-file *)
  file_name : string             (* #file-name *)
}.

Definition set_messages (ms : list messageDiv) (c : client) : client :=
  {| currentConversationId := currentConversationId c;
     currentModel := currentModel c;
     uploadedFileData := uploadedFileData c;
     isStreaming := isStreaming c;
     input_value := input_value c;
     web_search_toggle := web_search_toggle c;
     welcome := welcome c;
     messages := ms;
     send_disabled := send_disabled c;
     uploaded_file_shown := uploaded_file_shown c;
     file_name := file_name c |}.

Definition set_currentConversationId (v : option JSON.value) (c : client) : client :=
  {| currentConversationId := v;
     currentModel := currentModel c;
     uploadedFileData := uploadedFileData c;
     isStreaming := isStreaming c;
     input_value := input_value c;
     web_search_toggle := web_search_toggle c;
     welcome := welcome c;
     messages := messages c;
     send_disabled := send_disabled c;
     uploaded_file_shown := uploaded_file_shown c;
     file_name := file_name c |}.

Definition set_isStreaming (b : bool) (c : client) : client :=
  {| currentConversationId := currentConversationId c;
     currentModel := currentModel c;
     uploadedFileData := uploadedFileData c;
     isStreaming := b;
     input_value := input_value c;
     web_search_toggle := web_search_toggle c;
     welcome := welcome c;
     messages := messages c;
     send_disabled := send_disabled c;
     uploaded_file_shown := uploaded_file_shown c;
     file_name := file_name c |}.

Definition set_input_value (v : string) (c : client) : client :=
  {| currentConversationId := currentConversationId c;
     currentModel := currentModel c;
     uploadedFileData := uploadedFileData c;
     isStreaming := isStreaming c;
     input_value := v;
     web_search_toggle := web_search_toggle c;
     welcome := welcome c;
     messages := messages c;
     send_disabled := send_disabled c;
     uploaded_file_shown := uploaded_file_shown c;
     file_name := file_name c |}.

Definition set_welcome (b : bool) (c : client) : client :=
  {| currentConversationId := currentConversationId c;
     currentModel := currentModel c;
     uploadedFileData := uploadedFileData c;
     isStreaming := isStreaming c;
     input_value := input_value c;
     web_search_toggle := web_search_toggle c;
     welcome := b;
     messages := messages c;
     send_disabled := send_disabled c;
     uploaded_file_shown := uploaded_file_shown c;
     file_name := file_name c |}.

Definition set_uploadedFileData (u : option upload) (c : client) : client :=
  {| currentConversationId := currentConversationId c;
     currentModel := currentModel c;
     uploadedFileData := u;
     isStreaming := isStreaming c;
     input_value := input_value c;
     web_search_toggle := web_search_toggle c;
     welcome := welcome c;
     messages := messages c;
     send_disabled := send_disabled c;
     uploaded_file_shown := uploaded_file_shown c;
     file_name := file_name c |}.

Definition set_web_search_toggle (b : bool) (c : client) : client :=
  {| currentConversationId := currentConversationId c;
     currentModel := currentModel c;
     uploadedFileData := uploadedFileData c;
     isStreaming := isStreaming c;
     input_value := input_value c;
     web_search_toggle := b;
     welcome := welcome c;
     messages := messages c;
     send_disabled := send_disabled c;
     uploaded_file_shown := uploaded_file_shown c;
     file_name := file_name c |}.

Definition set_currentModel (m : option string) (c : client) : client :=
  {| currentConversationId := currentConversationId c;
     currentModel := m;
     uploadedFileData := uploadedFileData c;
     isStreaming := isStreaming c;
     input_value := input_value c;
     web_search_toggle := web_search_toggle c;
     welcome := welcome c;
     messages := messages c;
     send_disabled := send_disabled c;
     uploaded_file_shown := uploaded_file_shown c;
     file_name := file_name c |}.

(** The [#uploaded-file] element and the text of [#file-name]. *)
Definition set_uploaded_file (shown : bool) (name : string) (c : client)
  : client :=
  {| currentConversationId := currentConversationId c;
     currentModel := currentModel c;
     uploadedFileData := uploadedFileData c;
     isStreaming := isStreaming c;
     input_value := input_value c;
     web_search_toggle := web_search_toggle c;
     welcome := welcome c;
     messages := messages c;
     send_disabled := send_disabled c;
     uploaded_file_shown := shown;
     file_name := name |}.

Definition set_contentDiv (children : list node) (m : messageDiv) : messageDiv :=
  {| elem_id := elem_id m;
     role_of := role_of m;
     header := header m;
     contentDiv := children;
     appended := appended m |}.

(** [document.getElementById(messageId)]: the first element, in document
    order, that carries the id. *)
Definition getElementById (messageId : string) (ms : list messageDiv)
  : option messageDiv :=
  find (fun m => String.eqb (elem_id m) messageId) ms.

(** An update of the [.message-content] children of the element that
    [getElementById] returns; nothing changes when it returns [null] (the
    early [return]s of the three functions below). *)
Fixpoint update_element (messageId : string)
    (f : list node -> list node) (ms : list messageDiv) : list messageDiv :=
  match ms with
  | [] => []
  | m :: r =>
      if String.eqb (elem_id m) messageId
      then set_contentDiv (f (contentDiv m)) m :: r
      else m :: update_element messageId f r
  end.

Definition is_loading (n : node) : bool :=
  match n with LoadingIndicator => true | _ => false end.

(** [.tool-indicator[data-tool=toolName]] *)
Definition is_tool (toolName : string) (n : node) : bool :=
  match n with
  | ToolIndicator _ t _ => String.eqb t toolName
  | _ => false
  end.

(** [el.remove()] on the first element a selector matches. *)
Fixpoint remove_first (sel : node -> bool) (children : list node) : list node :=
  match children with
  | [] => []
  | n :: r => if sel n then r else n :: remove_first sel r
  end.

(** [parent.insertBefore(x, ref)] where [ref] is the first element a
    selector matches. *)
Fixpoint insert_before (sel : node -> bool) (x : node) (children : list node)
  : list node :=
  match children with
  | [] => [x]
  | n :: r => if sel n then x :: n :: r else n :: insert_before sel x r
  end.

(** Assignment to the first element a selector matches. *)
Fixpoint replace_first (sel : node -> bool) (x : node) (children : list node)
  : list node :=
  match children with
  | [] => []
  | n :: r => if sel n then x :: r else n :: replace_first sel x r
  end.

(** [el.innerHTML = html]: the former children are gone. *)
Definition set_innerHTML (html : string) (children : list node) : list node :=
  if Js.truthy html then [Markup html] else [].

(** The five kinds of envelope the server writes, and the object each one is
    on the wire. *)
Inductive envelope : Type :=
| Content (content : string)
| ToolStart (tool : string)
| ToolEnd (tool : string)
| Done (conversation_id : string)
| Error (error : string).

Definition encode (e : envelope) : JSON.value :=
  match e with
  | Content s => JSON.Obj [("type", JSON.Str "content"); ("content", JSON.Str s)]
  | ToolStart t => JSON.Obj [("type", JSON.Str "tool_start"); ("tool", JSON.Str t)]
  | ToolEnd t => JSON.Obj [("type", JSON.Str "tool_end"); ("tool", JSON.Str t)]
  | Done i => JSON.Obj [("type", JSON.Str "done"); ("conversation_id", JSON.Str i)]
  | Error s => JSON.Obj [("type", JSON.Str "error"); ("error", JSON.Str s)]
  end.

(** The locals of a [sendMessage] call suspended in its read loop. *)
Record activation : Type := {
  assistantMessageId : string;
  fullContent : string
}.

(** [try { body } catch (e) { console.error(..) }]: a body that throws
    ([None]) leaves the state as it was. *)
Definition try_catch {A : Type} (body : option A) (unchanged : A) : A :=
  match body with
  | Some a => a
  | None => unchanged
  end.

Section Client.

(** [JSON.parse]; [None] when it throws. *)
Variable JSON_parse : string -> option JSON.value.
(** [marked.parse] followed by [renderMathInElement] and [innerHTML]. *)
Variable marked : string -> string.
(** String conversion of a number, an array or an object. *)
Variable ToString : JSON.value -> string.

(** The string a template literal or [+=] makes of a property read. *)
Definition js_string (v : option JSON.value) : string :=
  match v with
  | None => "undefined"
  | Some JSON.Null => "null"
  | Some (JSON.Bool true) => "true"
  | Some (JSON.Bool false) => "false"
  | Some (JSON.Str s) => s
  | Some w => ToString w
  end.

(** [v === s] *)
Definition is_str (s : string) (v : option JSON.value) : bool :=
  match v with
  | Some (JSON.Str t) => String.eqb t s
  | _ => false
  end.

Definition renderMarkdown (content : string) : string :=
  if negb (Js.truthy content) then EmptyString else marked content.

Definition addMessage (now : nat) (r : role) (content : string)
    (isLoading : bool) (c : client) : string * client :=
  let messageId := "msg-" ++ Js.of_nat now in
  let messageDiv :=
    {| elem_id := messageId;
       role_of := r;
       header := match r with user => "You" | assistant => "Assistant" end;
       contentDiv :=
         if isLoading then [LoadingIndicator]
         else set_innerHTML (renderMarkdown content) [];
       appended := [] |} in
  (messageId, set_messages (messages c ++ [messageDiv]) c).

(** The three functions below start with the same two early [return]s:
    [update_element] leaves the page as it is when the element is missing.
    The [_in] function is the rest of the body, on the children of the
    [.message-content] element found. *)

Definition updateMessageContent_in (content : string) (children : list node)
  : list node :=
  let children :=
    if existsb is_loading children
    then remove_first is_loading children
    else children in
  set_innerHTML (renderMarkdown content) children.

Definition updateMessageContent (messageId content : string) (c : client)
  : client :=
  set_messages
    (update_element messageId (updateMessageContent_in content) (messages c)) c.

Definition removeLoadingIndicator_in (children : list node) : list node :=
  if existsb is_loading children
  then remove_first is_loading children
  else children.

Definition removeLoadingIndicator (messageId : string) (c : client) : client :=
  set_messages
    (update_element messageId removeLoadingIndicator_in (messages c)) c.

Definition showToolIndicator_in (toolName : string) (isActive : bool)
    (children : list node) : list node :=
  let toolIndicator := existsb (is_tool toolName) children in
  if isActive then
    if negb toolIndicator then
      let created :=
        ToolIndicator active toolName ("Using: " ++ toolName ++ "...") in
      if existsb is_loading children
      then insert_before is_loading created children
      else created :: children
    else children
  else
    if toolIndicator then
      replace_first (is_tool toolName)
        (ToolIndicator complete toolName ("Used: " ++ toolName)) children
    else children.

Definition showToolIndicator (messageId toolName : string) (isActive : bool)
    (c : client) : client :=
  set_messages
    (update_element messageId (showToolIndicator_in toolName isActive)
       (messages c)) c.

(** The body of the [try] block for one parsed payload.  [None] is a thrown
    exception: reading a property of [null]. *)
Definition dispatch (data : JSON.value) (a : activation) (c : client)
  : option (activation * client) :=
  match data with
  | JSON.Null => None
  | _ =>
      let type := JSON.get "type" data in
      if is_str "content" type then
        let fullContent' := fullContent a ++ js_string (JSON.get "content" data) in
        Some ({| assistantMessageId := assistantMessageId a;
                 fullContent := fullContent' |},
              updateMessageContent (assistantMessageId a) fullContent' c)
      else if is_str "tool_start" type then
        Some (a, showToolIndicator (assistantMessageId a)
                   (js_string (JSON.get "tool" data)) true c)
      else if is_str "tool_end" type then
        Some (a, showToolIndicator (assistantMessageId a)
                   (js_string (JSON.get "tool" data)) false c)
      else if is_str "done" type then
        Some (a, set_currentConversationId (JSON.get "conversation_id" data) c)
      else if is_str "error" type then
        Some (a, updateMessageContent (assistantMessageId a)
                   ("Error: " ++ js_string (JSON.get "error" data)) c)
      else Some (a, c)
  end.

(** The body of [for (const line of lines)]. *)
Definition on_line (st : activation * client) (line : string)
  : activation * client :=
  if Js.startsWith "data: " line then
    try_catch
      (match JSON_parse (Js.slice 6 line) with
       | Some data => dispatch data (fst st) (snd st)
       | None => None
       end)
      st
  else st.

(** One iteration of [while (true)] with a chunk read: the decoded chunk is
    split at line feeds and every piece is handled; nothing is kept for the
    next iteration. *)
Definition read_chunk (st : activation * client) (chunk : string)
  : activation * client :=
  fold_left on_line (Js.split chunk) st.

(** The read loop over the chunks the reader delivers before it reports
    [done]. *)
Definition read_loop (chunks : list string) (st : activation * client)
  : activation * client :=
  fold_left read_chunk chunks st.

(** The reduction step on an envelope: what the loop body does with the
    object the envelope is on the wire. *)
Definition apply (st : activation * client) (e : envelope)
  : activation * client :=
  try_catch (dispatch (encode e) (fst st) (snd st)) st.

Definition reduce (es : list envelope) (st : activation * client)
  : activation * client :=
  fold_left apply es st.

(** ** Sending a turn *)

Definition removeWelcomeMessage (c : client) : client := set_welcome false c.

Definition updateSendButton (c : client) : client :=
  {| currentConversationId := currentConversationId c;
     currentModel := currentModel c;
     uploadedFileData := uploadedFileData c;
     isStreaming := isStreaming c;
     input_value := input_value c;
     web_search_toggle := web_search_toggle c;
     welcome := welcome c;
     messages := messages c;
     send_disabled := isStreaming c;
     uploaded_file_shown := uploaded_file_shown c;
     file_name := file_name c |}.

Definition removeUploadedFile (c : client) : client :=
  set_uploaded_file false EmptyString (set_uploadedFileData None c).

Definition startNewChat (c : client) : client :=
  let c := set_currentConversationId (Some JSON.Null) c in
  let c := set_uploadedFileData None c in
  let c := set_welcome true (set_messages [] c) in
  removeUploadedFile c.

Definition make_thumb (img : image) : thumb :=
  {| src := "data:image/png;base64," ++ data img;
     alt := "Page " ++ Js.of_nat (page img);
     title := "Page " ++ Js.of_nat (page img) |}.

(** [querySelector('.message.user:last-of-type')]: every child of the
    container is a [div], so the only candidate is its last child. *)
Definition lastUserMessage (ms : list messageDiv) : option messageDiv :=
  match rev ms with
  | m :: _ => match role_of m with user => Some m | assistant => None end
  | [] => None
  end.

Definition append_to_last (d : pdfImages) (ms : list messageDiv)
  : list messageDiv :=
  match rev ms with
  | m :: r =>
      rev r ++ [{| elem_id := elem_id m;
                   role_of := role_of m;
                   header := header m;
                   contentDiv := contentDiv m;
                   appended := appended m ++ [d] |}]
  | [] => []
  end.

Definition addPdfImages (imgs : list image) (c : client) : client :=
  match lastUserMessage (messages c) with
  | Some _ =>
      if (0 <? length imgs)%nat then
        let imagesDiv :=
          {| thumbs := map make_thumb (firstn 5 imgs);
             moreSpan :=
               if (5 <? length imgs)%nat
               then Some ("+" ++ Js.of_nat (length imgs - 5) ++ " more pages")
               else None |} in
        set_messages (append_to_last imagesDiv (messages c)) c
      else c
  | None => c
  end.

(** The text sent for a turn that carries an upload. *)
Definition with_upload (u : upload) (message : string) : string :=
  "[Uploaded PDF: " ++ filename u ++ "]" ++ Js.LF ++ Js.LF ++
  "Text content:" ++ Js.LF ++ text_content u ++ Js.LF ++ Js.LF ++
  "---" ++ Js.LF ++ Js.LF ++ "User message: " ++ message.

(** [sendMessage] up to its first [await]: either it returns at one of the
    two guards ([None]), or it renders the user turn and the pending
    assistant entry, raises [isStreaming] and issues the request.  [now1] and
    [now2] are the two readings of [Date.now()]. *)
Definition sendMessage (now1 now2 : nat) (c : client)
  : client * option (request * activation) :=
  let message := Js.trim (input_value c) in
  match Js.truthy message, uploadedFileData c with
  | false, None => (c, None)
  | _, _ =>
      if isStreaming c then (c, None) else
      let webSearchEnabled := web_search_toggle c in
      let fullMessage :=
        match uploadedFileData c with
        | Some u => with_upload u message
        | None => message
        end in
      let data := uploadedFileData c in
      let c := set_input_value EmptyString c in
      let c := removeWelcomeMessage c in
      let shown :=
        match Js.truthy message, data with
        | false, Some u => "[Uploaded PDF: " ++ filename u ++ "]"
        | _, _ => message
        end in
      let c := snd (addMessage now1 user shown false c) in
      let c :=
        match data with
        | Some u =>
            if (0 <? length (images u))%nat then addPdfImages (images u) c else c
        | None => c
        end in
      let '(assistantMessageId, c) := addMessage now2 assistant EmptyString true c in
      let c := set_isStreaming true c in
      let c := updateSendButton c in
      (c, Some ({| message := fullMessage;
                   model_id := currentModel c;
                   conversation_id := currentConversationId c;
                   web_search_enabled := webSearchEnabled |},
                {| assistantMessageId := assistantMessageId;
                   fullContent := EmptyString |}))
  end.

(** The [finally] block. *)
Definition finally (c : client) : client :=
  let c := set_isStreaming false c in
  let c := updateSendButton c in
  let c := set_uploadedFileData None c in
  removeUploadedFile c.

(** The reader reports [done]: the loop is left, the loading indicator is
    removed, then [finally]. *)
Definition stream_end (a : activation) (c : client) : client :=
  finally (removeLoadingIndicator (assistantMessageId a) c).

(** [fetch] or [read] rejects with [error]: the [catch] block, then
    [finally]. *)
Definition stream_fail (a : activation) (error_message : string) (c : client)
  : client :=
  finally
    (updateMessageContent (assistantMessageId a) ("Error: " ++ error_message) c).

(** ** The client as a transition system

    The page, the [sendMessage] calls suspended in their read loop, and the
    requests issued so far.  Every event is one run-to-completion step of
    the script. *)

Record system : Type := {
  page_of : client;
  in_flight : list activation;
  sent : list request
}.

Inductive event : Type :=
| Send (now1 now2 : nat)                 (* send button or Enter *)
| Chunk (i : nat) (chunk : string)       (* a read of call [i] resolves *)
| Finished (i : nat)                     (* its reader reports done *)
| Failed (i : nat) (error_message : string)
| NewChat
| Typed (v : string)
| WebSearch (on : bool)
| ModelSelected (m : string)
| UploadStarted                          (* a PDF is chosen: handleFileUpload
                                            up to its await *)
| Uploaded (u : upload)                  (* the answer of /upload arrives *)
| UploadFailed
| UploadRemoved.

Fixpoint replace_nth {A : Type} (i : nat) (x : A) (l : list A) : list A :=
  match l, i with
  | [], _ => []
  | _ :: r, O => x :: r
  | y :: r, S k => y :: replace_nth k x r
  end.

Fixpoint remove_nth {A : Type} (i : nat) (l : list A) : list A :=
  match l, i with
  | [], _ => []
  | _ :: r, O => r
  | y :: r, S k => y :: remove_nth k r
  end.

Definition with_page (c : client) (s : system) : system :=
  {| page_of := c; in_flight := in_flight s; sent := sent s |}.

Definition step (s : system) (e : event) : system :=
  let c := page_of s in
  match e with
  | Send now1 now2 =>
      match sendMessage now1 now2 c with
      | (c', Some (req, a)) =>
          {| page_of := c'; in_flight := in_flight s ++ [a]; sent := sent s ++ [req] |}
      | (c', None) => with_page c' s
      end
  | Chunk i chunk =>
      match nth_error (in_flight s) i with
      | Some a =>
          let '(a', c') := read_chunk (a, c) chunk in
          {| page_of := c'; in_flight := replace_nth i a' (in_flight s); sent := sent s |}
      | None => s
      end
  | Finished i =>
      match nth_error (in_flight s) i with
      | Some a =>
          {| page_of := stream_end a c; in_flight := remove_nth i (in_flight s);
             sent := sent s |}
      | None => s
      end
  | Failed i msg =>
      match nth_error (in_flight s) i with
      | Some a =>
          {| page_of := stream_fail a msg c; in_flight := remove_nth i (in_flight s);
             sent := sent s |}
      | None => s
      end
  | NewChat => with_page (startNewChat c) s
  | Typed v => with_page (set_input_value v c) s
  | WebSearch on => with_page (set_web_search_toggle on c) s
  | ModelSelected m => with_page (set_currentModel (Some m) c) s
  | UploadStarted => with_page (set_uploaded_file true "Uploading..." c) s
  | Uploaded u =>
      with_page
        (set_uploaded_file (uploaded_file_shown c) (filename u)
           (set_uploadedFileData (Some u) c)) s
  | UploadFailed => with_page (removeUploadedFile c) s
  | UploadRemoved => with_page (removeUploadedFile c) s
  end.

Definition run (es : list event) (s : system) : system := fold_left step es s.

End Client.

(** The page as the script finds it when loaded. *)
Definition initial_client : client :=
  {| currentConversationId := Some JSON.Null;
     currentModel := None;
     uploadedFileData := None;
     isStreaming := false;
     input_value := EmptyString;
     web_search_toggle := false;
     welcome := true;
     messages := [];
     send_disabled := false;
     uploaded_file_shown := false;
     file_name := EmptyString |}.

Definition initial_system : system :=
  {| page_of := initial_client; in_flight := []; sent := [] |}.

(** ** What a transcript entry shows *)

(** The element the reducer of call [a] writes to. *)
Definition entry (a : activation) (c : client) : option messageDiv :=
  getElementById (assistantMessageId a) (messages c).

Definition loading (m : messageDiv) : bool := existsb is_loading (contentDiv m).

(** Tool badges of an entry, in document order, with their state. *)
Fixpoint badges_of (children : list node) : list (string * indicator) :=
  match children with
  | [] => []
  | ToolIndicator cls t _ :: r => (t, cls) :: badges_of r
  | _ :: r => badges_of r
  end.

Definition toolBadges (m : messageDiv) : list (string * indicator) :=
  badges_of (contentDiv m).

(** Number of badges an entry shows for a tool. *)
Definition badge_count (x : string) (m : messageDiv) : nat :=
  length (filter (is_tool x) (contentDiv m)).

(** No tool has two badges on the entry. *)
Definition unique_badges (m : messageDiv) : Prop :=
  forall x, badge_count x m <= 1.

(** The rendered text of an entry: the markup children. *)
Fixpoint markup_of (children : list node) : list string :=
  match children with
  | [] => []
  | Markup h :: r => h :: markup_of r
  | _ :: r => markup_of r
  end.

Definition displayed (m : messageDiv) : list string := markup_of (contentDiv m).



(** The text the content envelopes of a sequence carry, in order. *)
Fixpoint contents_of (es : list envelope) : string :=
  match es with
  | [] => EmptyString
  | Content s :: r => s ++ contents_of r
  | _ :: r => contents_of r
  end.

(** The session identifier of the last done envelope of a sequence. *)
Fixpoint last_done (es : list envelope) : option string :=
  match es with
  | [] => None
  | Done i :: r =>
      match last_done r with
      | Some j => Some j
      | None => Some i
      end
  | _ :: r => last_done r
  end.

Definition is_terminal (e : envelope) : bool :=
  match e with
  | Done _ | Error _ => true
  | _ => false
  end.

(** ** The wire *)

(** The bytes of a response: one [data: <json>] line and an empty line per
    payload. *)
Fixpoint wire (payloads : list string) : string :=
  match payloads with
  | [] => EmptyString
  | p :: r => "data: " ++ p ++ Js.LF ++ Js.LF ++ wire r
  end.

(** The chunks of a chunking, put back together. *)
Fixpoint join (chunks : list string) : string :=
  match chunks with
  | [] => EmptyString
  | ch :: r => ch ++ join r
  end.

(** A text without line feed. *)
Fixpoint single_line (s : string) : bool :=
  match s with
  | EmptyString => true
  | String ch r => negb (Ascii.eqb ch Js.lf) && single_line r
  end.

(** A chunk that ends where a line ends: it is empty or its last unit is a
    line feed. *)
Fixpoint whole_lines (chunk : string) : bool :=
  match chunk with
  | EmptyString => true
  | String ch EmptyString => Ascii.eqb ch Js.lf
  | String _ r => whole_lines r
  end.

(** What follows a chunk starts at a line end: nothing follows, or a line
    feed does. *)
Definition at_line_end (rest : string) : bool :=
  match rest with
  | EmptyString => true
  | String ch _ => Ascii.eqb ch Js.lf
  end.

(** A chunking none of whose boundaries falls inside a line: on one side of
    every boundary there is a line feed, or nothing at all. *)
Fixpoint line_aligned (chunks : list string) : bool :=
  match chunks with
  | [] => true
  | chunk :: r =>
      (whole_lines chunk || at_line_end (join r)) && line_aligned r
  end.

(** A line the loop body has nothing to do with: it lacks the [data: ]
    prefix, or [JSON.parse] throws on what follows the prefix. *)
Definition ignored_line (JSON_parse : string -> option JSON.value)
    (line : string) : Prop :=
  Js.startsWith "data: " line = false \/ JSON_parse (Js.slice 6 line) = None.

(** ** One turn in flight *)

(** The flag [isStreaming] is raised exactly when one call of [sendMessage]
    is suspended in its read loop, and no second one ever is. *)
Definition single_flight (s : system) : Prop :=
  length (in_flight s) = if isStreaming (page_of s) then 1 else 0.

(** ** Instances for the examples *)

(** A stand-in for the markdown pipeline: one paragraph around the text. *)
Definition sample_marked (content : string) : string := "<p>" ++ content ++ "</p>".

(** A stand-in for the string conversion of numbers, arrays and objects. *)
Definition sample_ToString (v : JSON.value) : string :=
  match v with
  | JSON.Num n => n
  | _ => "[object Object]"
  end.

(** The page and the suspended call right after the user sent [hi] from a
    fresh page: the pending assistant entry shows the loading indicator. *)
Definition pending : activation * client :=
  match sendMessage sample_marked 1 2
          (set_input_value "hi" initial_client) with
  | (c, Some (_, a)) => (a, c)
  | (c, None) => ({| assistantMessageId := EmptyString; fullContent := EmptyString |}, c)
  end.

Definition scenario : list envelope :=
  [ToolStart "search"; Content "The "; Content "answer"; ToolEnd "search";
   Content " is 42."; Done "abc"].



(** One content envelope on the wire, whole and cut inside its line. *)
Definition answer_payload : string :=
  Js.dq "{'type':'content','content':'The answer'}".

Definition answer_whole : list string :=
  ["data: " ++ answer_payload ++ Js.LF ++ Js.LF].

Definition answer_cut : list string :=
  [Js.dq "data: {'type':'content','con";
   Js.dq "tent':'The answer'}" ++ Js.LF ++ Js.LF].

(** Two content envelopes on the wire, cut after a line feed and before
    one. *)
Definition two_payloads : list string :=
  [Js.dq "{'type':'content','content':'The '}";
   Js.dq "{'type':'content','content':'answer'}"].

Definition two_chunks : list string :=
  [Js.dq "data: {'type':'content','content':'The '}" ++ Js.LF;
   Js.LF ++ Js.dq "data: {'type':'content','content':'answer'}";
   Js.LF ++ Js.LF].

(** The scenario as the server writes it: one chunk per envelope. *)
Definition scenario_chunks : list string :=
  map (fun p => "data: " ++ Js.dq p ++ Js.LF ++ Js.LF)
    ["{'type': 'tool_start', 'tool': 'search'}";
     "{'type': 'content', 'content': 'The '}";
     "{'type': 'content', 'content': 'answer'}";
     "{'type': 'tool_end', 'tool': 'search'}";
     "{'type': 'content', 'content': ' is 42.'}";
     "{'type': 'done', 'conversation_id': 'abc'}"].



(** A client with a turn in flight and new text in the input box. *)
Definition streaming : system :=
  run JSON.parse sample_marked sample_ToString
    [Typed "hi"; Send 1 2; Typed "again"] initial_system.

(** ** Further parts of the script *)

From Stdlib Require Import NArith DecimalNat DecimalN.

(** *** What an envelope leaves alone *)

(** The fields of the page other than the transcript and the session
    identifier. *)
Definition chrome (c : client)
  : option string * option upload * bool * string * bool * bool * bool * bool
    * string :=
  (currentModel c, uploadedFileData c, isStreaming c, input_value c,
   web_search_toggle c, welcome c, send_disabled c, uploaded_file_shown c,
   file_name c).

(** A message element without the children of its content element. *)
Definition frame_of (m : messageDiv) : string * role * string * list pdfImages :=
  (elem_id m, role_of m, header m, appended m).


(** What the loop body can do to the page: new children for the content
    element of the element an id resolves to, and a new session identifier. *)
Definition touches (i : string) (c c' : client) : Prop :=
  exists f v,
    c' = set_currentConversationId v
           (set_messages (update_element i f (messages c)) c).



(** The [type] values the loop body has a branch for. *)
Definition known_type (type : option JSON.value) : bool :=
  match type with
  | Some (JSON.Str t) =>
      String.eqb t "content" || String.eqb t "tool_start" ||
      String.eqb t "tool_end" || String.eqb t "done" || String.eqb t "error"
  | _ => false
  end.

(** A text of white space only. *)
Fixpoint blank (s : string) : bool :=
  match s with
  | EmptyString => true
  | String ch r => Js.is_space ch && blank r
  end.



(** *** [formatFileSize]

    The argument is a size in bytes: a non-negative integer below [2^53].
    Its quotient by [1024] or by [1024 * 1024] is then the exact value of the
    JavaScript division, and [toFixed(1)] takes the integer [n] nearest to
    ten times that value, the larger one at a tie, and writes [n] with one
    digit after the point. *)

Definition of_N (n : N) : string := NilZero.string_of_uint (N.to_uint n).

(** [(num / den).toFixed(1)] for an exact quotient. *)
Definition toFixed1 (num den : N) : string :=
  let n := ((20 * num + den) / (2 * den))%N in
  of_N (n / 10) ++ "." ++ of_N (n mod 10).

Definition formatFileSize (bytes : N) : string :=
  if (bytes <? 1024)%N then of_N bytes ++ " B"
  else if (bytes <? 1024 * 1024)%N then toFixed1 bytes 1024 ++ " KB"
  else toFixed1 bytes (1024 * 1024) ++ " MB".

(** *** [loadModels] and [updateCurrentModelDisplay] *)


(** The [#model-select] element (value and text of each option, index of the
    selected one) and the text of [#current-model]. *)
Record picker : Type := {
  options : list (string * string);
  selectedIndex : option nat;
  current_model : string
}.


Definition updateCurrentModelDisplay (p : picker) : picker :=
  let selectedOption :=
    match selectedIndex p with
    | Some i => nth_error (options p) i
    | None => None
    end in
  {| options := options p;
     selectedIndex := selectedIndex p;
     current_model :=
       "Model: " ++
       match selectedOption with
       | Some (_, textContent) => textContent
       | None => "Unknown"
       end |}.


(** [loadModels] when the request fails: the [catch] block. *)
Definition loadModels_failed (st : client * picker) : client * picker :=
  (fst st,
   {| options := options (snd st);
      selectedIndex := selectedIndex (snd st);
      current_model := "Failed to load models" |}).

(** The [change] listener of the select element, when the user picks option
    [i]. *)
Definition model_changed (i : nat) (st : client * picker) : client * picker :=
  match nth_error (options (snd st)) i with
  | Some (value, _) =>
      (set_currentModel (Some value) (fst st),
       updateCurrentModelDisplay
         {| options := options (snd st);
            selectedIndex := Some i;
            current_model := current_model (snd st) |})
  | None => st
  end.

(** *** [handleFileUpload] *)

(** [s.toLowerCase()] on the units below 256. *)
Definition lower (ch : ascii) : ascii :=
  let n := nat_of_ascii ch in
  if ((65 <=? n) && (n <=? 90))%nat then ascii_of_nat (n + 32)
  else if ((192 <=? n) && (n <=? 222) && negb (n =? 215))%nat
       then ascii_of_nat (n + 32)
  else ch.

Fixpoint toLowerCase (s : string) : string :=
  match s with
  | EmptyString => EmptyString
  | String ch r => String (lower ch) (toLowerCase r)
  end.





(** *** Where the selectors see what the model sees

    [showToolIndicator] builds its selector by pasting the tool name between
    double quotes: [.tool-indicator[data-tool="NAME"]].  Inside a quoted
    string of a selector a backslash starts an escape, a double quote ends
    the string, a line feed, form feed or carriage return makes the string
    (and the selector) invalid, and NUL is read as U+FFFD.  Every other unit
    stands for itself: for a name made of such units the selector is valid and
    matches the indicators whose [data-tool] attribute is that name, which is
    the comparison [is_tool] makes. *)




(** [contentDiv.innerHTML = html] parses the markup into elements.  The
    script finds its elements by class ([.loading-indicator],
    [.tool-indicator[..]], [.message-content]) and by id ([getElementById]
    with the id of a message).  An attribute name is written in the markup
    as it is, in either case, with no escape: markup in which the word does
    not occur yields no element with that attribute. *)
Definition attribute_free (name html : string) : bool :=
  negb (Js.includes name (toLowerCase html)).

(** Markup with no [class] and no [id] attribute: no element of it is
    matched by a selector of the script or returned by [getElementById]. *)
Definition inert (html : string) : bool :=
  attribute_free "class" html && attribute_free "id" html.

Definition plain (n : node) : bool :=
  match n with
  | Markup html => inert html
  | _ => true
  end.




(** * Properties *)

(** ** Strings and lists *)

Lemma append_nil_r (s : string) : s ++ EmptyString = s.
Proof. induction s as [|ch s IH]; simpl; [reflexivity | now rewrite IH]. Qed.

Lemma append_assoc (s t u : string) : (s ++ t) ++ u = s ++ t ++ u.
Proof. induction s as [|ch s IH]; simpl; [reflexivity | now rewrite IH]. Qed.

Lemma filter_length_existsb {A : Type} (p : A -> bool) (l : list A) :
  existsb p l = (0 <? length (filter p l))%nat.
Proof.
  induction l as [|x l IH]; simpl; [reflexivity|].
  destruct (p x); simpl; [reflexivity | exact IH].
Qed.


(** ** The element a reducer writes to *)


Lemma set_contentDiv_same (m : messageDiv) : set_contentDiv (contentDiv m) m = m.
Proof. now destruct m. Qed.

Lemma update_element_same (i : string) (f : list node -> list node)
    (ms : list messageDiv) :
  (forall m, getElementById i ms = Some m -> f (contentDiv m) = contentDiv m) ->
  update_element i f ms = ms.
Proof.
  unfold getElementById. induction ms as [|m ms IH]; simpl; intros H.
  - reflexivity.
  - destruct (String.eqb (elem_id m) i).
    + rewrite (H m eq_refl). now rewrite set_contentDiv_same.
    + now rewrite IH.
Qed.

Lemma getElementById_update (i : string) (f : list node -> list node)
    (ms : list messageDiv) :
  getElementById i (update_element i f ms) =
  option_map (fun m => set_contentDiv (f (contentDiv m)) m) (getElementById i ms).
Proof.
  unfold getElementById. induction ms as [|m ms IH]; simpl.
  - reflexivity.
  - destruct (String.eqb (elem_id m) i) eqn:E; simpl; rewrite E.
    + reflexivity.
    + exact IH.
Qed.

Lemma update_element_twice (i : string) (f g : list node -> list node)
    (ms : list messageDiv) :
  update_element i g (update_element i f ms) =
  update_element i (fun children => g (f children)) ms.
Proof.
  induction ms as [|m ms IH]; simpl.
  - reflexivity.
  - destruct (String.eqb (elem_id m) i) eqn:E; simpl; rewrite E.
    + reflexivity.
    + now rewrite IH.
Qed.


(** ** Tool indicators *)







Lemma filter_insert_before_any (sel p : node -> bool) (x : node)
    (l : list node) :
  length (filter p (insert_before sel x l)) =
  (if p x then 1 else 0) + length (filter p l).
Proof.
  induction l as [|n l IH]; simpl.
  - destruct (p x); reflexivity.
  - destruct (sel n); simpl.
    + destruct (p x); reflexivity.
    + destruct (p n); simpl; rewrite IH; destruct (p x); simpl; lia.
Qed.

Lemma filter_replace_first (sel p : node -> bool) (x : node) (l : list node) :
  (forall n, sel n = true -> p n = p x) ->
  length (filter p (replace_first sel x l)) = length (filter p l).
Proof.
  intros H. induction l as [|n l IH]; simpl; [reflexivity|].
  destruct (sel n) eqn:E; simpl.
  - rewrite (H n E). destruct (p x); reflexivity.
  - destruct (p n); simpl; now rewrite IH.
Qed.

Lemma showToolIndicator_in_unique (x : string) (isActive : bool)
    (children : list node) :
  (forall y, length (filter (is_tool y) children) <= 1) ->
  forall y,
    length (filter (is_tool y) (showToolIndicator_in x isActive children)) <= 1.
Proof.
  intros U y. unfold showToolIndicator_in.
  destruct isActive; destruct (existsb (is_tool x) children) eqn:E;
    cbn [negb]; try apply U.
  - assert (Z : length (filter (is_tool x) children) = 0).
    { rewrite filter_length_existsb in E.
      destruct (length (filter (is_tool x) children));
        [reflexivity | discriminate]. }
    assert (C : (if is_tool y (ToolIndicator active x ("Using: " ++ x ++ "..."))
                 then 1 else 0) + length (filter (is_tool y) children) <= 1).
    { cbn [is_tool]. destruct (String.eqb_spec x y) as [->|N].
      - rewrite Z. lia.
      - specialize (U y). lia. }
    destruct (existsb is_loading children).
    + now rewrite filter_insert_before_any.
    + cbn [filter]. cbn [is_tool] in *.
      destruct (String.eqb x y); cbn [length] in *; lia.
  - rewrite filter_replace_first; [apply U|].
    intros [|cls t txt|h] Hn; cbn [is_tool] in *; try discriminate.
    apply String.eqb_eq in Hn. now subst t.
Qed.

Section Properties.

Variable JSON_parse : string -> option JSON.value.
Variable marked : string -> string.
Variable ToString : JSON.value -> string.

Local Abbreviation apply' := (apply marked ToString).
Local Abbreviation reduce' := (reduce marked ToString).
Local Abbreviation on_line' := (on_line JSON_parse marked ToString).
Local Abbreviation read_chunk' := (read_chunk JSON_parse marked ToString).
Local Abbreviation read_loop' := (read_loop JSON_parse marked ToString).

(** ** One reduction step, by kind of envelope *)

Lemma apply_Content (a : activation) (c : client) (s : string) :
  apply' (a, c) (Content s) =
  ({| assistantMessageId := assistantMessageId a;
      fullContent := fullContent a ++ s |},
   updateMessageContent marked (assistantMessageId a) (fullContent a ++ s) c).
Proof. reflexivity. Qed.

Lemma apply_ToolStart (a : activation) (c : client) (x : string) :
  apply' (a, c) (ToolStart x) =
  (a, showToolIndicator (assistantMessageId a) x true c).
Proof. reflexivity. Qed.

Lemma apply_ToolEnd (a : activation) (c : client) (x : string) :
  apply' (a, c) (ToolEnd x) =
  (a, showToolIndicator (assistantMessageId a) x false c).
Proof. reflexivity. Qed.

Lemma apply_Done (a : activation) (c : client) (i : string) :
  apply' (a, c) (Done i) =
  (a, set_currentConversationId (Some (JSON.Str i)) c).
Proof. reflexivity. Qed.

Lemma apply_Error (a : activation) (c : client) (s : string) :
  apply' (a, c) (Error s) =
  (a, updateMessageContent marked (assistantMessageId a) ("Error: " ++ s) c).
Proof. reflexivity. Qed.

Lemma entry_showToolIndicator (a : activation) (c : client) (x : string)
    (isActive : bool) :
  entry a (showToolIndicator (assistantMessageId a) x isActive c) =
  option_map
    (fun m => set_contentDiv (showToolIndicator_in x isActive (contentDiv m)) m)
    (entry a c).
Proof. unfold entry, showToolIndicator. simpl. apply getElementById_update. Qed.

Lemma entry_updateMessageContent (a : activation) (c : client) (s : string) :
  entry a (updateMessageContent marked (assistantMessageId a) s c) =
  option_map
    (fun m => set_contentDiv (updateMessageContent_in marked s (contentDiv m)) m)
    (entry a c).
Proof. unfold entry, updateMessageContent. simpl. apply getElementById_update. Qed.



(** ** Rendering replaces the children of the entry *)

Lemma updateMessageContent_in_spec (s : string) (children : list node) :
  updateMessageContent_in marked s children =
  set_innerHTML (renderMarkdown marked s) [].
Proof. reflexivity. Qed.

Lemma set_innerHTML_plain (html : string) :
  badges_of (set_innerHTML html []) = [] /\
  existsb is_loading (set_innerHTML html []) = false /\
  (forall x, length (filter (is_tool x) (set_innerHTML html [])) = 0).
Proof. unfold set_innerHTML. destruct (Js.truthy html); simpl; auto. Qed.

Lemma apply_keeps_id (st : activation * client) (e : envelope) :
  assistantMessageId (fst (apply' st e)) = assistantMessageId (fst st).
Proof. destruct st as [a c]. destruct e; reflexivity. Qed.

(** The entry after one step: unfold the step, then follow the element
    through the update of its children. *)
Ltac entry_after Hm :=
  first [ rewrite apply_Content | rewrite apply_ToolStart
        | rewrite apply_ToolEnd | rewrite apply_Error ];
  cbn [snd];
  first [ rewrite entry_updateMessageContent | rewrite entry_showToolIndicator ];
  rewrite Hm; cbn [option_map].

Lemma apply_keeps_entry (a : activation) (c : client) (e : envelope)
    (m : messageDiv) :
  entry a c = Some m ->
  exists m', entry a (snd (apply' (a, c) e)) = Some m'.
Proof.
  intros Hm. destruct e; try (entry_after Hm; now eexists).
  rewrite apply_Done. cbn [snd]. now exists m.
Qed.

Lemma entry_same_id (a a' : activation) (c : client) :
  assistantMessageId a' = assistantMessageId a -> entry a' c = entry a c.
Proof. unfold entry. now intros ->. Qed.

Lemma reduce_cons (e : envelope) (es : list envelope)
    (st : activation * client) :
  reduce' (e :: es) st = reduce' es (apply' st e).
Proof. reflexivity. Qed.

Lemma reduce_keeps_id (es : list envelope) (st : activation * client) :
  assistantMessageId (fst (reduce' es st)) = assistantMessageId (fst st).
Proof.
  revert st. induction es as [|e es IH]; intros st; [reflexivity|].
  now rewrite reduce_cons, IH, apply_keeps_id.
Qed.

Lemma reduce_keeps_entry (es : list envelope) (a : activation) (c : client)
    (m : messageDiv) :
  entry a c = Some m ->
  exists m', entry a (snd (reduce' es (a, c))) = Some m'.
Proof.
  revert a c m. induction es as [|e es IH]; intros a c m Hm.
  - now exists m.
  - rewrite reduce_cons.
    destruct (apply_keeps_entry a c e m Hm) as [m1 H1].
    pose proof (apply_keeps_id (a, c) e) as Hid. cbn [fst] in Hid.
    destruct (apply' (a, c) e) as [a1 c1] eqn:E. cbn [fst snd] in *.
    rewrite <- (entry_same_id a a1 c1 Hid) in H1.
    destruct (IH a1 c1 m1 H1) as [m2 H2].
    exists m2. now rewrite <- (entry_same_id a a1 _ Hid).
Qed.

(** ** At most one badge for a tool *)

Lemma apply_unique_badges (a : activation) (c : client) (e : envelope)
    (m : messageDiv) :
  entry a c = Some m ->
  unique_badges m ->
  exists m', entry a (snd (apply' (a, c) e)) = Some m' /\ unique_badges m'.
Proof.
  intros Hm U.
  assert (R : forall s,
    unique_badges (set_contentDiv (updateMessageContent_in marked s (contentDiv m)) m)).
  { intros s x. unfold badge_count. cbn [contentDiv set_contentDiv].
    rewrite updateMessageContent_in_spec.
    destruct (set_innerHTML_plain (renderMarkdown marked s)) as (_ & _ & Z).
    rewrite Z. lia. }
  assert (T : forall x b,
    unique_badges (set_contentDiv (showToolIndicator_in x b (contentDiv m)) m)).
  { intros x b y. unfold badge_count. cbn [contentDiv set_contentDiv].
    apply showToolIndicator_in_unique. exact U. }
  destruct e;
    try (entry_after Hm; eexists; split; [reflexivity | first [apply R | apply T]]).
  rewrite apply_Done. cbn [snd]. exists m. split; [exact Hm | exact U].
Qed.

Lemma reduce_unique_badges (es : list envelope) (a : activation) (c : client)
    (m : messageDiv) :
  entry a c = Some m ->
  unique_badges m ->
  exists m', entry a (snd (reduce' es (a, c))) = Some m' /\ unique_badges m'.
Proof.
  revert a c m. induction es as [|e es IH]; intros a c m Hm U.
  - now exists m.
  - rewrite reduce_cons.
    destruct (apply_unique_badges a c e m Hm U) as (m1 & H1 & U1).
    pose proof (apply_keeps_id (a, c) e) as Hid. cbn [fst] in Hid.
    destruct (apply' (a, c) e) as [a1 c1] eqn:E. cbn [fst snd] in *.
    rewrite <- (entry_same_id a a1 c1 Hid) in H1.
    destruct (IH a1 c1 m1 H1 U1) as (m2 & H2 & U2).
    exists m2. split; [|exact U2].
    now rewrite <- (entry_same_id a a1 _ Hid).
Qed.

(** ** Text and session identifier along a reduction *)

Lemma apply_fullContent (st : activation * client) (e : envelope) :
  fullContent (fst (apply' st e)) = fullContent (fst st) ++ contents_of [e].
Proof.
  destruct st as [a c].
  destruct e; simpl; now rewrite ?append_nil_r.
Qed.

Lemma reduce_fullContent (es : list envelope) (st : activation * client) :
  fullContent (fst (reduce' es st)) = fullContent (fst st) ++ contents_of es.
Proof.
  revert st. induction es as [|e es IH]; intros st.
  - cbn. now rewrite append_nil_r.
  - rewrite reduce_cons, IH, apply_fullContent.
    destruct e; cbn [contents_of]; now rewrite ?append_nil_r, ?append_assoc.
Qed.

Lemma apply_session (st : activation * client) (e : envelope) :
  currentConversationId (snd (apply' st e)) =
  match e with
  | Done i => Some (JSON.Str i)
  | _ => currentConversationId (snd st)
  end.
Proof. destruct st as [a c]. destruct e; reflexivity. Qed.

Lemma reduce_session (es : list envelope) (st : activation * client) :
  currentConversationId (snd (reduce' es st)) =
  match last_done es with
  | Some i => Some (JSON.Str i)
  | None => currentConversationId (snd st)
  end.
Proof.
  revert st. induction es as [|e es IH]; intros st; [reflexivity|].
  rewrite reduce_cons, IH, apply_session.
  destruct e; cbn [last_done]; destruct (last_done es); reflexivity.
Qed.

Lemma reduce_app (pre post : list envelope) (st : activation * client) :
  reduce' (pre ++ post) st = reduce' post (reduce' pre st).
Proof. unfold reduce. apply fold_left_app. Qed.



(** C2 (as the code has it).  From a pending entry with no text yet, the
    scenario reduces to the text [The answer is 42.] and the session
    identifier [abc]; the entry holds the rendering of that text and nothing
    else: no loading indicator and no badge for [search], because the
    content envelope that follows tool_start renders over the badge and
    tool_end then finds none to complete. *)
Theorem C2_scenario_reduction
    (a : activation) (c : client) (m : messageDiv) :
  entry a c = Some m ->
  fullContent a = EmptyString ->
  fullContent (fst (reduce' scenario (a, c))) = "The answer is 42." /\
  currentConversationId (snd (reduce' scenario (a, c))) = Some (JSON.Str "abc") /\
  exists m',
    entry a (snd (reduce' scenario (a, c))) = Some m' /\
    contentDiv m' = set_innerHTML (marked "The answer is 42.") [] /\
    toolBadges m' = [] /\
    badge_count "search" m' = 0 /\
    loading m' = false.
Proof.
  intros Hm Hfc.
  split; [now rewrite reduce_fullContent; cbn [fst]; rewrite Hfc|].
  split; [now rewrite reduce_session|].
  change scenario with
    ([ToolStart "search"; Content "The "; Content "answer"; ToolEnd "search"]
       ++ [Content " is 42."; Done "abc"])%list.
  rewrite reduce_app.
  set (pre := [ToolStart "search"; Content "The "; Content "answer"; ToolEnd "search"]).
  destruct (reduce_keeps_entry pre a c m Hm) as [m1 H1].
  pose proof (reduce_keeps_id pre (a, c)) as Hid.
  pose proof (reduce_fullContent pre (a, c)) as Htxt.
  destruct (reduce' pre (a, c)) as [a1 c1]. cbn [fst snd] in *.
  rewrite Hfc in Htxt. simpl in Htxt.
  rewrite <- (entry_same_id a a1 c1 Hid) in H1.
  unfold reduce. cbn [fold_left].
  rewrite apply_Content, apply_Done. cbn [snd].
  change (messages (set_currentConversationId ?v ?k)) with (messages k).
  rewrite <- (entry_same_id a a1 _ Hid).
  unfold entry at 1. cbn [messages set_currentConversationId].
  fold (entry a1 (updateMessageContent marked (assistantMessageId a1)
                    (fullContent a1 ++ " is 42.") c1)).
  rewrite entry_updateMessageContent, H1. cbn [option_map].
  eexists. split; [reflexivity|].
  unfold toolBadges, loading, badge_count. cbn [contentDiv set_contentDiv].
  rewrite updateMessageContent_in_spec, Htxt.
  change (renderMarkdown marked ("The answer" ++ " is 42."))
    with (marked "The answer is 42.").
  destruct (set_innerHTML_plain (marked "The answer is 42.")) as (Hb & Hl & Hc).
  auto.
Qed.

(** C5 (as the code has it).  The reducer keeps no record of a terminal
    envelope: whatever follows one is applied like any other envelope.  The
    state after the whole sequence is the reduction of the envelopes after
    position [i] from the state reached at position [i]; its text is the
    text reached there followed by the content that came later, and its
    session identifier is that of the last done envelope that came later,
    if any. *)
Theorem C5_envelopes_after_terminal_are_applied
    (pre post : list envelope) (t : envelope) (st : activation * client) :
  is_terminal t = true ->
  reduce' (pre ++ t :: post) st = reduce' post (reduce' (pre ++ [t]) st) /\
  fullContent (fst (reduce' (pre ++ t :: post) st)) =
    fullContent (fst (reduce' (pre ++ [t]) st)) ++ contents_of post /\
  currentConversationId (snd (reduce' (pre ++ t :: post) st)) =
    match last_done post with
    | Some i => Some (JSON.Str i)
    | None => currentConversationId (snd (reduce' (pre ++ [t]) st))
    end.
Proof.
  intros _.
  assert (E : reduce' (pre ++ t :: post) st
              = reduce' post (reduce' (pre ++ [t]) st)).
  { rewrite <- reduce_app, <- app_assoc. reflexivity. }
  rewrite E. split; [reflexivity|]. split.
  - apply reduce_fullContent.
  - apply reduce_session.
Qed.

(** ** Lines the loop body skips *)

Lemma on_line_null_payload (st : activation * client) (line : string) :
  JSON_parse (Js.slice 6 line) = Some JSON.Null -> on_line' st line = st.
Proof.
  intros H. unfold on_line. rewrite H.
  now destruct (Js.startsWith "data: " line).
Qed.

(** C10.  A line without the [data: ] prefix is skipped, and a line whose
    payload [JSON.parse] rejects is caught by the handler around the loop
    body: either way the state after the line is the state before it. *)
Theorem C10_ignored_line_changes_nothing
    (st : activation * client) (line : string) :
  ignored_line JSON_parse line ->
  on_line' st line = st.
Proof.
  intros [H|H]; unfold on_line.
  - now rewrite H.
  - rewrite H. now destruct (Js.startsWith "data: " line).
Qed.

Lemma on_line_ignored (st : activation * client) (line : string) :
  ignored_line JSON_parse line -> on_line' st line = st.
Proof.
  unfold on_line. intros [H|H]; rewrite H; [reflexivity|].
  now destruct (Js.startsWith "data: " line).
Qed.

Lemma read_chunk_ignored (st : activation * client) (chunk : string) :
  Forall (ignored_line JSON_parse) (Js.split chunk) ->
  read_chunk' st chunk = st.
Proof.
  unfold read_chunk. generalize (Js.split chunk) as lines.
  induction lines as [|l ls IH]; intros H; simpl; [reflexivity|].
  inversion H; subst.
  rewrite on_line_ignored by assumption. now apply IH.
Qed.

(** ** Chunks that end at line ends *)

Lemma split_not_nil (s : string) : Js.split s <> [].
Proof.
  destruct s as [|ch s]; simpl; [discriminate|].
  destruct (Ascii.eqb ch Js.lf); [discriminate|].
  destruct (Js.split s); discriminate.
Qed.

Lemma split_app_lf (s t : string) :
  Js.split (s ++ String Js.lf t) = (Js.split s ++ Js.split t)%list.
Proof.
  induction s as [|ch s IH]; simpl.
  - reflexivity.
  - rewrite IH. destruct (Ascii.eqb ch Js.lf); [reflexivity|].
    pose proof (split_not_nil s) as N.
    destruct (Js.split s); [contradiction | reflexivity].
Qed.

Lemma split_single_line (s : string) :
  single_line s = true -> Js.split s = [s].
Proof.
  induction s as [|ch s IH]; simpl; [reflexivity|].
  intros H. apply andb_true_iff in H as [Hc Hs].
  apply negb_true_iff in Hc. rewrite Hc, (IH Hs). reflexivity.
Qed.

Lemma whole_lines_cases (chunk : string) :
  whole_lines chunk = true ->
  chunk = EmptyString \/ exists s, chunk = s ++ Js.LF.
Proof.
  induction chunk as [|ch r IH]; [now left|].
  intros H. right. destruct r as [|ch' r'].
  - simpl in H. apply Ascii.eqb_eq in H. subst ch. now exists EmptyString.
  - destruct (IH H) as [E|[s E]]; [discriminate|].
    exists (String ch s). simpl. now rewrite <- E.
Qed.

Lemma on_line_empty (st : activation * client) :
  on_line' st EmptyString = st.
Proof. reflexivity. Qed.

Lemma read_chunk_empty (st : activation * client) :
  read_chunk' st EmptyString = st.
Proof. reflexivity. Qed.

Lemma read_chunk_app (chunk rest : string) (st : activation * client) :
  whole_lines chunk || at_line_end rest = true ->
  read_chunk' st (chunk ++ rest) = read_chunk' (read_chunk' st chunk) rest.
Proof.
  intros H. apply orb_true_iff in H as [H|H].
  - destruct (whole_lines_cases chunk H) as [->|[s ->]].
    + reflexivity.
    + unfold Js.LF. rewrite append_assoc. cbn [append].
      unfold read_chunk. rewrite !split_app_lf, !fold_left_app.
      cbn [Js.split fold_left]. now rewrite on_line_empty.
  - destruct rest as [|ch rest]; cbn [at_line_end] in H.
    + now rewrite append_nil_r, read_chunk_empty.
    + apply Ascii.eqb_eq in H. subst ch.
      unfold read_chunk. rewrite split_app_lf.
      change (String Js.lf rest) with (EmptyString ++ String Js.lf rest).
      rewrite split_app_lf, !fold_left_app.
      cbn [Js.split fold_left]. now rewrite on_line_empty.
Qed.

Lemma read_loop_join (chunks : list string) (st : activation * client) :
  line_aligned chunks = true ->
  read_loop' chunks st = read_chunk' st (join chunks).
Proof.
  revert st. induction chunks as [|chunk r IH]; intros st H.
  - reflexivity.
  - cbn [line_aligned] in H. apply andb_true_iff in H as [Hc Hr].
    cbn [join]. rewrite read_chunk_app by exact Hc.
    rewrite <- IH by exact Hr. reflexivity.
Qed.

Lemma on_line_data (st : activation * client) (p : string) (e : envelope) :
  JSON_parse p = Some (encode e) ->
  on_line' st ("data: " ++ p) = apply' st e.
Proof.
  intros H. unfold on_line.
  assert (P : Js.startsWith "data: " ("data: " ++ p) = true)
    by (cbn; now destruct p).
  rewrite P. change (Js.slice 6 ("data: " ++ p)) with p. rewrite H.
  destruct st as [a c]. reflexivity.
Qed.

Lemma split_wire_cons (p : string) (r : list string) :
  single_line p = true ->
  Js.split (wire (p :: r)) = ("data: " ++ p) :: EmptyString :: Js.split (wire r).
Proof.
  intros H.
  change (wire (p :: r))
    with (("data: " ++ p) ++ String Js.lf (EmptyString ++ String Js.lf (wire r))).
  rewrite !split_app_lf. rewrite split_single_line; [reflexivity|].
  simpl. exact H.
Qed.

Lemma read_chunk_wire (payloads : list string) (es : list envelope)
    (st : activation * client) :
  Forall2
    (fun p e => single_line p = true /\ JSON_parse p = Some (encode e))
    payloads es ->
  read_chunk' st (wire payloads) = reduce' es st.
Proof.
  intros H. revert st. induction H as [|p e ps es' [Hl Hp] _ IH]; intros st.
  - reflexivity.
  - unfold read_chunk. rewrite split_wire_cons by exact Hl.
    cbn [fold_left]. rewrite (on_line_data st p e Hp), on_line_empty.
    rewrite reduce_cons. apply IH.
Qed.

(** C1 (as the code has it).  The loop splits every chunk at line feeds on
    its own and keeps nothing from one chunk for the next.  For a chunking
    of the wire bytes none of whose boundaries falls inside a line, the loop
    reaches the state the envelopes on the wire reduce to, whatever the
    chunking, and the text it has accumulated is the concatenation of the
    content they carry. *)
Theorem C1_line_aligned_chunking
    (payloads : list string) (es : list envelope) (chunks : list string)
    (st : activation * client) :
  Forall2
    (fun p e => single_line p = true /\ JSON_parse p = Some (encode e))
    payloads es ->
  join chunks = wire payloads ->
  line_aligned chunks = true ->
  read_loop' chunks st = reduce' es st /\
  read_loop' chunks st = read_loop' [wire payloads] st /\
  fullContent (fst (read_loop' chunks st)) =
    fullContent (fst st) ++ contents_of es.
Proof.
  intros Hp Hj Hw.
  assert (E : read_loop' chunks st = reduce' es st).
  { rewrite read_loop_join by exact Hw. rewrite Hj. now apply read_chunk_wire. }
  split; [exact E|]. split.
  - rewrite E. symmetry. apply read_chunk_wire. exact Hp.
  - rewrite E. apply reduce_fullContent.
Qed.

(** ** The streaming flag along the read loop *)

Lemma dispatch_isStreaming (data : JSON.value) (a a' : activation)
    (c c' : client) :
  dispatch marked ToString data a c = Some (a', c') ->
  isStreaming c' = isStreaming c.
Proof.
  unfold dispatch. intros H.
  destruct data; try discriminate;
    repeat match type of H with
           | (if ?b then _ else _) = _ => destruct b
           end;
    inversion H; subst; reflexivity.
Qed.

Lemma on_line_isStreaming (st : activation * client) (line : string) :
  isStreaming (snd (on_line' st line)) = isStreaming (snd st).
Proof.
  unfold on_line. destruct (Js.startsWith "data: " line); [|reflexivity].
  destruct (JSON_parse (Js.slice 6 line)) as [data|]; [|reflexivity].
  destruct (dispatch marked ToString data (fst st) (snd st)) as [[a' c']|] eqn:E;
    [|reflexivity].
  cbn [try_catch snd]. now apply dispatch_isStreaming in E.
Qed.

Lemma read_chunk_isStreaming (st : activation * client) (chunk : string) :
  isStreaming (snd (read_chunk' st chunk)) = isStreaming (snd st).
Proof.
  unfold read_chunk. generalize (Js.split chunk) as lines.
  intros lines. revert st.
  induction lines as [|l ls IH]; intros st; cbn [fold_left]; [reflexivity|].
  now rewrite IH, on_line_isStreaming.
Qed.

Lemma replace_nth_length {A : Type} (i : nat) (x : A) (l : list A) :
  length (replace_nth i x l) = length l.
Proof.
  revert i. induction l as [|y l IH]; intros [|i]; simpl; auto.
Qed.

Lemma remove_nth_length {A : Type} (i : nat) (l : list A) (x : A) :
  nth_error l i = Some x -> S (length (remove_nth i l)) = length l.
Proof.
  revert i. induction l as [|y l IH]; intros [|i] H; simpl in *;
    try discriminate; auto.
Qed.

Lemma with_page_same (s : system) : with_page (page_of s) s = s.
Proof. now destruct s. Qed.

Lemma sendMessage_cases (now1 now2 : nat) (c : client) :
  sendMessage marked now1 now2 c = (c, None) \/
  (isStreaming c = false /\
   exists c' req a,
     sendMessage marked now1 now2 c = (c', Some (req, a)) /\
     isStreaming c' = true).
Proof.
  unfold sendMessage.
  destruct (Js.truthy (Js.trim (input_value c))) eqn:T;
    destruct (uploadedFileData c) as [u|] eqn:U;
    try (now left);
    (destruct (isStreaming c) eqn:S; [now left | right; split; [reflexivity|]]);
    cbv zeta;
    match goal with
    | |- context [addMessage marked now2 assistant EmptyString true ?k] =>
        destruct (addMessage marked now2 assistant EmptyString true k)
          as [mid k'] eqn:A
    end;
    do 3 eexists; split; reflexivity.
Qed.

Lemma sendMessage_while_streaming (now1 now2 : nat) (c : client) :
  isStreaming c = true -> sendMessage marked now1 now2 c = (c, None).
Proof.
  intros S. destruct (sendMessage_cases now1 now2 c) as [E|[F _]];
    [exact E | congruence].
Qed.

Lemma step_single_flight (s : system) (e : event) :
  single_flight s ->
  single_flight (step JSON_parse marked ToString s e).
Proof.
  unfold single_flight. intros I. destruct e; cbn [step].
  - destruct (sendMessage_cases now1 now2 (page_of s))
      as [E|(F & c' & req & a & E & T)]; rewrite E; cbn.
    + exact I.
    + rewrite T, length_app, I, F. reflexivity.
  - destruct (nth_error (in_flight s) i) as [a|]; [|exact I].
    pose proof (read_chunk_isStreaming (a, page_of s) chunk) as R.
    destruct (read_chunk' (a, page_of s) chunk) as [a' c']. cbn in *.
    now rewrite replace_nth_length, R.
  - destruct (nth_error (in_flight s) i) as [a|] eqn:N; [|exact I].
    cbn. apply remove_nth_length in N.
    destruct (isStreaming (page_of s)); lia.
  - destruct (nth_error (in_flight s) i) as [a|] eqn:N; [|exact I].
    cbn. apply remove_nth_length in N.
    destruct (isStreaming (page_of s)); lia.
  - exact I.
  - exact I.
  - exact I.
  - exact I.
  - exact I.
  - exact I.
  - exact I.
  - exact I.
Qed.

Lemma run_single_flight (es : list event) (s : system) :
  single_flight s ->
  single_flight (run JSON_parse marked ToString es s).
Proof.
  revert s. induction es as [|e es IH]; intros s I; [exact I|].
  apply IH. now apply step_single_flight.
Qed.

Lemma initial_single_flight : single_flight initial_system.
Proof. reflexivity. Qed.

Lemma reachable_single_flight (es : list event) :
  length (in_flight (run JSON_parse marked ToString es initial_system)) <= 1.
Proof.
  pose proof (run_single_flight es initial_system initial_single_flight) as I.
  unfold single_flight in I.
  destruct (isStreaming (page_of (run JSON_parse marked ToString es initial_system)));
    lia.
Qed.

(** C6.  In a state where the streaming flag stands for the one call in
    flight: while the flag is raised, a further [sendMessage] returns at its
    guard and leaves the whole client as it is, with no request issued and
    no transcript entry touched; every client event keeps the flag in step
    with the calls in flight; so at most one call is ever in its read
    loop. *)
Theorem C6_single_turn_in_flight (s : system) :
  single_flight s ->
  (isStreaming (page_of s) = true ->
   forall now1 now2,
     step JSON_parse marked ToString s (Send now1 now2) = s) /\
  (forall e, single_flight (step JSON_parse marked ToString s e)) /\
  length (in_flight s) <= 1.
Proof.
  intros I. split; [|split].
  - intros S now1 now2. cbn [step].
    rewrite sendMessage_while_streaming by exact S.
    apply with_page_same.
  - intros e. now apply step_single_flight.
  - unfold single_flight in I. destruct (isStreaming (page_of s)); lia.
Qed.

(** ** A turn that carries an upload *)




End Properties.

(** * The properties on concrete runs *)

Lemma C1_line_aligned_chunking_witness :
  read_loop JSON.parse sample_marked sample_ToString two_chunks pending =
    reduce sample_marked sample_ToString [Content "The "; Content "answer"] pending /\
  read_loop JSON.parse sample_marked sample_ToString two_chunks pending =
    read_loop JSON.parse sample_marked sample_ToString [wire two_payloads] pending /\
  fullContent
    (fst (read_loop JSON.parse sample_marked sample_ToString two_chunks pending)) =
    "The answer".
Proof.
  apply (C1_line_aligned_chunking JSON.parse sample_marked sample_ToString
           two_payloads [Content "The "; Content "answer"] two_chunks pending).
  - repeat constructor.
  - reflexivity.
  - reflexivity.
Defined.

(** C1, counterexample.  The same bytes, once in one chunk and once cut
    inside the [data: ] line: the whole line yields the text, the two
    pieces yield nothing, since the first piece fails to parse and the
    second lacks the prefix. *)
Lemma C1_cut_line_is_lost :
  join answer_cut = join answer_whole /\
  fullContent
    (fst (read_loop JSON.parse sample_marked sample_ToString answer_whole pending)) =
    "The answer" /\
  fullContent
    (fst (read_loop JSON.parse sample_marked sample_ToString answer_cut pending)) =
    EmptyString.
Proof. repeat split; vm_compute; reflexivity. Qed.

(** The read loop on the bytes of the scenario does what the reduction of
    its envelopes does; when the reader then reports the end of the stream,
    the flag is lowered and the send button enabled again. *)
Example scenario_on_the_wire :
  read_loop JSON.parse sample_marked sample_ToString scenario_chunks pending =
    reduce sample_marked sample_ToString scenario pending /\
  isStreaming
    (stream_end
       (fst (read_loop JSON.parse sample_marked sample_ToString scenario_chunks pending))
       (snd (read_loop JSON.parse sample_marked sample_ToString scenario_chunks pending))) =
    false.
Proof. split; vm_compute; reflexivity. Qed.

Lemma C2_scenario_reduction_witness :
  fullContent (fst (reduce sample_marked sample_ToString scenario pending)) =
    "The answer is 42." /\
  currentConversationId (snd (reduce sample_marked sample_ToString scenario pending)) =
    Some (JSON.Str "abc") /\
  exists m',
    entry (fst pending) (snd (reduce sample_marked sample_ToString scenario pending)) =
      Some m' /\
    contentDiv m' = [Markup "<p>The answer is 42.</p>"] /\
    toolBadges m' = [] /\
    badge_count "search" m' = 0 /\
    loading m' = false.
Proof.
  exact (C2_scenario_reduction sample_marked sample_ToString
           (fst pending) (snd pending) _ eq_refl eq_refl).
Defined.

(** C2, counterexample.  After the scenario the pending entry shows no badge
    at all, where the specification has one badge for [search] in the complete
    state. *)
Lemma C2_scenario_leaves_no_badge :
  exists m,
    entry (fst pending) (snd (reduce sample_marked sample_ToString scenario pending)) =
      Some m /\
    contentDiv m = [Markup "<p>The answer is 42.</p>"] /\
    toolBadges m = [] /\
    badge_count "search" m = 0.
Proof. eexists. repeat split; vm_compute; reflexivity. Qed.





Lemma C5_envelopes_after_terminal_witness :
  fullContent
    (fst (reduce sample_marked sample_ToString
            [Content "a"; Done "abc"; Content "late"; Done "xyz"] pending)) =
    "alate" /\
  currentConversationId
    (snd (reduce sample_marked sample_ToString
            [Content "a"; Done "abc"; Content "late"; Done "xyz"] pending)) =
    Some (JSON.Str "xyz").
Proof.
  destruct (C5_envelopes_after_terminal_are_applied sample_marked sample_ToString
              [Content "a"] [Content "late"; Done "xyz"] (Done "abc") pending
              eq_refl) as (_ & T & I).
  split; [exact T | exact I].
Defined.

(** C5, counterexample.  A content envelope and a second done envelope that
    follow the terminal one are applied: text and session identifier after
    the whole sequence are not those reached at the terminal envelope. *)
Lemma C5_late_envelopes_change_the_state :
  fullContent
    (fst (reduce sample_marked sample_ToString [Content "a"; Done "abc"] pending)) =
    "a" /\
  currentConversationId
    (snd (reduce sample_marked sample_ToString [Content "a"; Done "abc"] pending)) =
    Some (JSON.Str "abc") /\
  fullContent
    (fst (reduce sample_marked sample_ToString
            [Content "a"; Done "abc"; Content "late"; Done "xyz"] pending)) =
    "alate" /\
  currentConversationId
    (snd (reduce sample_marked sample_ToString
            [Content "a"; Done "abc"; Content "late"; Done "xyz"] pending)) =
    Some (JSON.Str "xyz").
Proof. repeat split; vm_compute; reflexivity. Qed.

Lemma C6_single_turn_in_flight_witness :
  step JSON.parse sample_marked sample_ToString streaming (Send 3 4) = streaming /\
  single_flight
    (step JSON.parse sample_marked sample_ToString streaming (Finished 0)) /\
  length (in_flight streaming) <= 1.
Proof.
  destruct (C6_single_turn_in_flight JSON.parse sample_marked sample_ToString
              streaming eq_refl) as (R & P & L).
  split; [exact (R eq_refl 3 4)|]. split; [exact (P (Finished 0)) | exact L].
Defined.






Lemma C10_ignored_line_witness :
  on_line JSON.parse sample_marked sample_ToString pending
    (Js.dq "data: {'type':'content','con") = pending /\
  on_line JSON.parse sample_marked sample_ToString pending "event: ping" = pending.
Proof.
  split.
  - apply (C10_ignored_line_changes_nothing JSON.parse sample_marked sample_ToString).
    right. reflexivity.
  - apply (C10_ignored_line_changes_nothing JSON.parse sample_marked sample_ToString).
    left. reflexivity.
Defined.

(** * Further properties *)

(** ** What the read loop leaves alone *)

Lemma touches_refl (i : string) (c : client) : touches i c c.
Proof.
  exists (fun children => children), (currentConversationId c).
  rewrite update_element_same by reflexivity. now destruct c.
Qed.

Lemma touches_trans (i : string) (c1 c2 c3 : client) :
  touches i c1 c2 -> touches i c2 c3 -> touches i c1 c3.
Proof.
  intros (f & v & ->) (g & w & ->).
  exists (fun children => g (f children)), w.
  cbn [messages set_currentConversationId set_messages].
  rewrite update_element_twice. reflexivity.
Qed.

Lemma touches_messages (i : string) (f : list node -> list node) (c : client) :
  touches i c (set_messages (update_element i f (messages c)) c).
Proof. exists f, (currentConversationId c). now destruct c. Qed.

Lemma touches_session (i : string) (v : option JSON.value) (c : client) :
  touches i c (set_currentConversationId v c).
Proof.
  exists (fun children => children), v.
  rewrite update_element_same by reflexivity. now destruct c.
Qed.

Lemma touches_chrome (i : string) (c c' : client) :
  touches i c c' -> chrome c' = chrome c.
Proof. intros (f & v & ->). reflexivity. Qed.


Lemma update_element_frames (i : string) (f : list node -> list node)
    (ms : list messageDiv) :
  map frame_of (update_element i f ms) = map frame_of ms.
Proof.
  induction ms as [|m ms IH]; simpl; [reflexivity|].
  destruct (String.eqb (elem_id m) i); simpl; [reflexivity | now rewrite IH].
Qed.

Lemma update_element_other (i j : string) (f : list node -> list node)
    (ms : list messageDiv) :
  j <> i ->
  getElementById j (update_element i f ms) = getElementById j ms.
Proof.
  intros N. unfold getElementById.
  induction ms as [|m ms IH]; simpl; [reflexivity|].
  destruct (String.eqb (elem_id m) i) eqn:E; simpl.
  - apply String.eqb_eq in E.
    assert (F : String.eqb (elem_id m) j = false)
      by (apply String.eqb_neq; congruence).
    now rewrite F.
  - destruct (String.eqb (elem_id m) j); [reflexivity | exact IH].
Qed.

Lemma touches_frames (i : string) (c c' : client) :
  touches i c c' -> map frame_of (messages c') = map frame_of (messages c).
Proof. intros (f & v & ->). apply update_element_frames. Qed.

Lemma touches_other (i j : string) (c c' : client) :
  touches i c c' -> j <> i ->
  getElementById j (messages c') = getElementById j (messages c).
Proof. intros (f & v & ->) N. now apply update_element_other. Qed.

Lemma touches_missing (i : string) (c c' : client) :
  touches i c c' -> getElementById i (messages c) = None ->
  messages c' = messages c.
Proof.
  intros (f & v & ->) N. cbn [messages set_currentConversationId set_messages].
  apply update_element_same. intros m Hm. congruence.
Qed.




(** ** Message ids *)




(** ** White space *)

Lemma trimStart_blank (s : string) : blank s = true -> Js.trimStart s = EmptyString.
Proof.
  induction s as [|ch r IH]; simpl; [reflexivity|].
  intros H. apply andb_true_iff in H as [Hc Hr]. rewrite Hc. now apply IH.
Qed.



(** ** Loading indicator and badges, as lists of children *)











(** ** Turns of a transcript *)



(** ** [formatFileSize] *)

Lemma toFixed1_digits (num den : N) :
  (0 < den)%N ->
  exists whole tenth,
    toFixed1 num den = of_N whole ++ "." ++ of_N tenth /\
    (tenth < 10)%N /\
    (2 * den * (10 * whole + tenth) <= 20 * num + den)%N /\
    (20 * num + den < 2 * den * (10 * whole + tenth) + 2 * den)%N.
Proof.
  intros D. unfold toFixed1.
  set (n := ((20 * num + den) / (2 * den))%N).
  exists (n / 10)%N, (n mod 10)%N.
  split; [reflexivity|].
  assert (E : (10 * (n / 10) + n mod 10 = n)%N)
    by (symmetry; apply N.div_mod; discriminate).
  rewrite E.
  split; [apply N.mod_lt; discriminate|].
  split.
  - apply N.Div0.mul_div_le.
  - pose proof (N.mul_succ_div_gt (20 * num + den) (2 * den)) as G.
    fold n in G. lia.
Qed.

Section Coverage.

Variable JSON_parse : string -> option JSON.value.
Variable marked : string -> string.
Variable ToString : JSON.value -> string.

Local Abbreviation apply' := (apply marked ToString).
Local Abbreviation reduce' := (reduce marked ToString).
Local Abbreviation on_line' := (on_line JSON_parse marked ToString).
Local Abbreviation read_chunk' := (read_chunk JSON_parse marked ToString).
Local Abbreviation read_loop' := (read_loop JSON_parse marked ToString).

Lemma dispatch_touches (data : JSON.value) (a a' : activation) (c c' : client) :
  dispatch marked ToString data a c = Some (a', c') ->
  assistantMessageId a' = assistantMessageId a /\
  touches (assistantMessageId a) c c'.
Proof.
  unfold dispatch. intros H.
  destruct data; try discriminate;
    repeat match type of H with
           | (if ?b then _ else _) = _ => destruct b
           end;
    inversion H; subst; cbn [assistantMessageId]; split; try reflexivity;
    first [ apply touches_messages | apply touches_session | apply touches_refl ].
Qed.

Lemma on_line_touches (st : activation * client) (line : string) :
  assistantMessageId (fst (on_line' st line)) = assistantMessageId (fst st) /\
  touches (assistantMessageId (fst st)) (snd st) (snd (on_line' st line)).
Proof.
  unfold on_line.
  destruct (Js.startsWith "data: " line);
    [|split; [reflexivity | apply touches_refl]].
  destruct (JSON_parse (Js.slice 6 line)) as [data|];
    [|split; [reflexivity | apply touches_refl]].
  destruct (dispatch marked ToString data (fst st) (snd st)) as [[a' c']|] eqn:E;
    [|split; [reflexivity | apply touches_refl]].
  cbn [try_catch fst snd]. now apply dispatch_touches in E.
Qed.

Lemma lines_touch (lines : list string) (st : activation * client) :
  assistantMessageId (fst (fold_left on_line' lines st)) =
    assistantMessageId (fst st) /\
  touches (assistantMessageId (fst st)) (snd st)
    (snd (fold_left on_line' lines st)).
Proof.
  revert st. induction lines as [|l ls IH]; intros st; cbn [fold_left].
  - split; [reflexivity | apply touches_refl].
  - destruct (on_line_touches st l) as [I T].
    destruct (IH (on_line' st l)) as [I' T'].
    split; [congruence|].
    rewrite I in T'. exact (touches_trans _ _ _ _ T T').
Qed.

Lemma read_loop_touches (chunks : list string) (st : activation * client) :
  assistantMessageId (fst (read_loop' chunks st)) = assistantMessageId (fst st) /\
  touches (assistantMessageId (fst st)) (snd st) (snd (read_loop' chunks st)).
Proof.
  revert st. induction chunks as [|ch r IH]; intros st.
  - split; [reflexivity | apply touches_refl].
  - change (read_loop' (ch :: r) st) with (read_loop' r (read_chunk' st ch)).
    destruct (lines_touch (Js.split ch) st) as [I T].
    fold (read_chunk' st ch) in I, T.
    destruct (IH (read_chunk' st ch)) as [I' T'].
    split; [congruence|].
    rewrite I in T'. exact (touches_trans _ _ _ _ T T').
Qed.



(** X1.  Whatever bytes the read loop receives, it writes to one place of
    the transcript only: the content of the element its message id resolves
    to.  Every other field of the page except the session identifier, the
    id, role, header and attachments of every message, and every element
    found under another id are as before; when the id resolves to nothing,
    the whole transcript is as before. *)
Theorem X1_read_loop_touches_one_element
    (chunks : list string) (a : activation) (c : client) :
  chrome (snd (read_loop' chunks (a, c))) = chrome c /\
  map frame_of (messages (snd (read_loop' chunks (a, c)))) =
    map frame_of (messages c) /\
  (forall j, j <> assistantMessageId a ->
     getElementById j (messages (snd (read_loop' chunks (a, c)))) =
     getElementById j (messages c)) /\
  (entry a c = None -> messages (snd (read_loop' chunks (a, c))) = messages c).
Proof.
  destruct (read_loop_touches chunks (a, c)) as [_ T]. cbn [fst snd] in T.
  split; [exact (touches_chrome _ _ _ T)|].
  split; [exact (touches_frames _ _ _ T)|].
  split.
  - intros j N. exact (touches_other _ _ _ _ T N).
  - intros N. exact (touches_missing _ _ _ T N).
Qed.


(** ** Sending *)







(** ** The entry along the read loop *)

Lemma dispatch_entry (data : JSON.value) (a a' : activation) (c c' : client)
    (m : messageDiv) :
  dispatch marked ToString data a c = Some (a', c') ->
  entry a c = Some m ->
  exists m',
    entry a' c' = Some m' /\
    (contentDiv m' = contentDiv m \/
     (exists s, contentDiv m' = updateMessageContent_in marked s (contentDiv m)) \/
     (exists x b, contentDiv m' = showToolIndicator_in x b (contentDiv m))).
Proof.
  unfold dispatch. intros H Hm.
  destruct data; try discriminate;
    repeat match type of H with
           | (if ?b then _ else _) = _ => destruct b
           end;
    inversion H; subst; clear H.
  all: try (exists m; split; [exact Hm | now left]).
  all: try (unfold entry in *; cbn [assistantMessageId];
            first [ rewrite (entry_updateMessageContent marked a c)
                  | idtac ]).
  all: unfold entry, updateMessageContent, showToolIndicator;
       cbn [assistantMessageId messages set_messages];
       rewrite getElementById_update; unfold entry in Hm; rewrite Hm;
       cbn [option_map]; eexists; (split; [reflexivity|]);
       cbn [contentDiv set_contentDiv]; right;
       first [ left; eexists; reflexivity | right; do 2 eexists; reflexivity ].
Qed.

Section Invariant.

Variable P : list node -> Prop.
Hypothesis P_render :
  forall children s, P children -> P (updateMessageContent_in marked s children).
Hypothesis P_tool :
  forall children x b, P children -> P (showToolIndicator_in x b children).

Lemma on_line_invariant (st : activation * client) (line : string)
    (m : messageDiv) :
  entry (fst st) (snd st) = Some m ->
  P (contentDiv m) ->
  exists m',
    entry (fst (on_line' st line)) (snd (on_line' st line)) = Some m' /\
    P (contentDiv m').
Proof.
  intros Hm Pm. unfold on_line.
  destruct (Js.startsWith "data: " line); [|now exists m].
  destruct (JSON_parse (Js.slice 6 line)) as [data|]; [|now exists m].
  destruct (dispatch marked ToString data (fst st) (snd st)) as [[a' c']|] eqn:E;
    [|now exists m].
  cbn [try_catch fst snd].
  destruct (dispatch_entry _ _ _ _ _ _ E Hm)
    as (m' & Hm' & [C|[[s C]|[x [b C]]]]);
    exists m'; (split; [exact Hm'|]); rewrite C; auto.
Qed.

Lemma read_loop_invariant (chunks : list string) (st : activation * client)
    (m : messageDiv) :
  entry (fst st) (snd st) = Some m ->
  P (contentDiv m) ->
  exists m',
    entry (fst (read_loop' chunks st)) (snd (read_loop' chunks st)) = Some m' /\
    P (contentDiv m').
Proof.
  assert (L : forall lines st m,
    entry (fst st) (snd st) = Some m -> P (contentDiv m) ->
    exists m',
      entry (fst (fold_left on_line' lines st))
            (snd (fold_left on_line' lines st)) = Some m' /\
      P (contentDiv m')).
  { induction lines as [|l ls IH]; intros st0 m0 H0 P0; cbn [fold_left].
    - now exists m0.
    - destruct (on_line_invariant st0 l m0 H0 P0) as (m1 & H1 & P1).
      exact (IH _ _ H1 P1). }
  revert st m. induction chunks as [|ch r IH]; intros st m Hm Pm.
  - now exists m.
  - change (read_loop' (ch :: r) st) with (read_loop' r (read_chunk' st ch)).
    destruct (L (Js.split ch) st m Hm Pm) as (m1 & H1 & P1).
    exact (IH _ _ H1 P1).
Qed.

End Invariant.

(** *** Entries on which the selectors are exact *)














(** ** Tool badges *)





(** ** Lines on the wire *)

Lemma whole_lines_app (s t : string) :
  t <> EmptyString -> whole_lines (s ++ t) = whole_lines t.
Proof.
  intros N. induction s as [|ch r IH]; [reflexivity|].
  cbn [append whole_lines]. destruct (r ++ t) eqn:E.
  - destruct r; [contradiction | discriminate].
  - exact IH.
Qed.

Lemma whole_lines_wire (payloads : list string) :
  whole_lines (wire payloads) = true.
Proof.
  induction payloads as [|p ps IH]; [reflexivity|].
  cbn [wire].
  rewrite (whole_lines_app "data: ") by (destruct p; discriminate).
  change (Js.LF ++ Js.LF ++ wire ps) with (String Js.lf (String Js.lf (wire ps))).
  rewrite (whole_lines_app p) by discriminate.
  cbn [whole_lines]. destruct (wire ps); [reflexivity | exact IH].
Qed.

(** X12.  When a chunk boundary cuts one [data: ] line into two pieces that
    the loop body both ignores, the envelope of that line is lost and
    nothing else: the loop reaches the state the other envelopes reduce
    to. *)
Theorem X12_cut_line_loses_its_envelope_only
    (before after : list string) (es1 es2 : list envelope)
    (piece1 piece2 : string) (st : activation * client) :
  Forall2
    (fun p e => single_line p = true /\ JSON_parse p = Some (encode e))
    before es1 ->
  Forall2
    (fun p e => single_line p = true /\ JSON_parse p = Some (encode e))
    after es2 ->
  single_line piece1 = true ->
  single_line piece2 = true ->
  ignored_line JSON_parse piece1 ->
  ignored_line JSON_parse piece2 ->
  read_loop'
    [wire before ++ piece1; piece2 ++ Js.LF ++ Js.LF ++ wire after] st =
  reduce' (es1 ++ es2) st.
Proof.
  intros F1 F2 S1 S2 I1 I2.
  unfold read_loop. cbn [fold_left].
  rewrite (read_chunk_app JSON_parse marked ToString (wire before) piece1)
    by (now rewrite whole_lines_wire).
  rewrite (read_chunk_wire JSON_parse marked ToString before es1) by exact F1.
  assert (P1 : forall s, read_chunk' s piece1 = s).
  { intros s. unfold read_chunk. rewrite split_single_line by exact S1.
    cbn [fold_left]. now apply on_line_ignored. }
  rewrite P1.
  assert (P2 : forall s,
    read_chunk' s (piece2 ++ Js.LF ++ Js.LF ++ wire after) =
    read_chunk' s (wire after)).
  { intros s. unfold read_chunk.
    change (piece2 ++ Js.LF ++ Js.LF ++ wire after)
      with (piece2 ++ String Js.lf (EmptyString ++ String Js.lf (wire after))).
    rewrite !split_app_lf, !fold_left_app, (split_single_line piece2 S2).
    cbn [Js.split fold_left].
    rewrite (on_line_ignored JSON_parse marked ToString _ _ I2).
    now rewrite on_line_empty. }
  rewrite P2.
  rewrite (read_chunk_wire JSON_parse marked ToString after es2) by exact F2.
  now rewrite reduce_app.
Qed.

(** X13.  A [data: ] line whose payload parses to anything but an object
    with one of the five [type] values the loop body knows changes
    nothing: [null] (the property read throws and is caught), a number, a
    string, an array, an object without [type] or with another one. *)
Theorem X13_unknown_payload_changes_nothing
    (st : activation * client) (line : string) (data : JSON.value) :
  JSON_parse (Js.slice 6 line) = Some data ->
  known_type (JSON.get "type" data) = false ->
  on_line' st line = st.
Proof.
  intros H K. unfold on_line.
  destruct (Js.startsWith "data: " line); [|reflexivity].
  rewrite H. unfold dispatch.
  assert (N : forall t, In t ["content"; "tool_start"; "tool_end"; "done"; "error"] ->
              is_str t (JSON.get "type" data) = false).
  { intros t I. unfold known_type, is_str in *.
    destruct (JSON.get "type" data) as [[| | |s| |]|]; try reflexivity.
    repeat (apply orb_false_iff in K as [K ?]).
    cbn [In] in I.
    repeat (destruct I as [<-|I]; [assumption|]). contradiction. }
  destruct data; [reflexivity| | | | |];
    rewrite !N by (cbn; tauto); now destruct st.
Qed.

(** ** The page along a run of the client *)










(** ** Models and uploads *)









End Coverage.

(** ** File sizes *)

(** X16.  A size of one KiB or more is shown in KB, below one MiB, or in MB,
    with one digit after the point: the tenths shown are the integer
    nearest to ten times the exact quotient, the larger one at a tie. *)
Theorem X16_file_size_is_rounded_to_a_tenth (bytes : N) :
  (1024 <= bytes)%N ->
  (bytes < 9007199254740992)%N ->
  exists whole tenth,
    formatFileSize bytes =
      (of_N whole ++ "." ++ of_N tenth) ++
      (if (bytes <? 1048576)%N then " KB" else " MB") /\
    (tenth < 10)%N /\
    (let d := if (bytes <? 1048576)%N then 1024%N else 1048576%N in
     2 * d * (10 * whole + tenth) <= 20 * bytes + d /\
     20 * bytes + d < 2 * d * (10 * whole + tenth) + 2 * d)%N.
Proof.
  intros L _. unfold formatFileSize.
  assert (F : (bytes <? 1024)%N = false) by (apply N.ltb_ge; exact L).
  rewrite F. change (1024 * 1024)%N with 1048576%N.
  destruct (bytes <? 1048576)%N.
  - destruct (toFixed1_digits bytes 1024) as (w & t & E & T & A & B);
      [reflexivity|].
    exists w, t. rewrite E. auto.
  - destruct (toFixed1_digits bytes 1048576) as (w & t & E & T & A & B);
      [reflexivity|].
    exists w, t. rewrite E. auto.
Qed.

(** X17.  Just below one MiB the size is not carried over to the next
    unit: every size from 1048525 to 1048575 bytes is shown as
    [1024.0 KB]. *)
Theorem X17_file_size_just_below_one_MiB (bytes : N) :
  (1048525 <= bytes)%N ->
  (bytes < 1048576)%N ->
  formatFileSize bytes = "1024.0 KB".
Proof.
  intros L U. unfold formatFileSize.
  assert (F : (bytes <? 1024)%N = false) by (apply N.ltb_ge; lia).
  assert (G : (bytes <? 1024 * 1024)%N = true) by (apply N.ltb_lt; exact U).
  rewrite F, G. unfold toFixed1.
  assert (Q : ((20 * bytes + 1024) / (2 * 1024) = 10240)%N).
  { symmetry. apply N.div_unique with (r := (20 * bytes + 1024 - 20971520)%N); lia. }
  rewrite Q. reflexivity.
Qed.

(** * The further properties on concrete runs *)










Lemma X12_cut_line_witness :
  read_loop JSON.parse sample_marked sample_ToString
    [wire [Js.dq "{'type':'content','content':'The '}"] ++
       Js.dq "data: {'type':'content','con";
     Js.dq "tent':'lost'}" ++ Js.LF ++ Js.LF ++
       wire [Js.dq "{'type':'content','content':'answer'}"]]
    pending =
  reduce sample_marked sample_ToString [Content "The "; Content "answer"] pending.
Proof.
  apply (X12_cut_line_loses_its_envelope_only JSON.parse sample_marked
           sample_ToString
           [Js.dq "{'type':'content','content':'The '}"]
           [Js.dq "{'type':'content','content':'answer'}"]
           [Content "The "] [Content "answer"]).
  - repeat constructor.
  - repeat constructor.
  - reflexivity.
  - reflexivity.
  - right. reflexivity.
  - left. reflexivity.
Defined.

Lemma X13_unknown_payload_witness :
  on_line JSON.parse sample_marked sample_ToString pending
    (Js.dq "data: {'type':'progress','step':1}") = pending.
Proof.
  apply (X13_unknown_payload_changes_nothing JSON.parse sample_marked
           sample_ToString pending (Js.dq "data: {'type':'progress','step':1}")
           (JSON.Obj [("type", JSON.Str "progress"); ("step", JSON.Num "1")])).
  - reflexivity.
  - reflexivity.
Defined.

Lemma X16_file_size_witness :
  exists whole tenth,
    formatFileSize 1536 = (of_N whole ++ "." ++ of_N tenth) ++ " KB" /\
    (tenth < 10)%N /\
    (2048 * (10 * whole + tenth) <= 20 * 1536 + 1024 /\
     20 * 1536 + 1024 < 2048 * (10 * whole + tenth) + 2048)%N.
Proof.
  exact (X16_file_size_is_rounded_to_a_tenth 1536 ltac:(lia) ltac:(lia)).
Defined.

Lemma X17_file_size_just_below_one_MiB_witness :
  formatFileSize 1048575 = "1024.0 KB".
Proof.
  exact (X17_file_size_just_below_one_MiB 1048575 ltac:(lia) ltac:(lia)).
Defined.


